(** * OptimizerWrapper (agilerl/algorithms/core/wrappers.py)

    A shallow embedding of the optimizer-binding facade: the attribute
    resolver, the three-way construction policy and the delegation
    surface, over an abstract torch-style optimizer interface. *)

From Stdlib Require Import ZArith Lia.
From stdpp Require Import base list strings.

Local Open Scope string_scope.
Set Warnings "-register-all".

(** ** Python objects seen by the wrapper

    Every object has an identity ([id(obj)]); two objects with equal
    contents may still have different identities. *)

Definition ref := nat.
Definition param := nat.

Inductive pyobj : Type :=
| PyModule (r : ref) (ps : list param)
| PyList (r : ref) (items : list pyobj)
| PyTuple (r : ref) (items : list pyobj)
| PyOther (r : ref).

Definition py_id (o : pyobj) : ref :=
  match o with
  | PyModule r _ | PyList r _ | PyTuple r _ | PyOther r => r
  end.

(** Structural contents of an object, identities erased at the top. *)
Definition same_contents (a b : pyobj) : Prop :=
  match a, b with
  | PyModule _ ps, PyModule _ qs => ps = qs
  | PyList _ xs, PyList _ ys => xs = ys
  | PyTuple _ xs, PyTuple _ ys => xs = ys
  | PyOther _, PyOther _ => True
  | _, _ => False
  end.

Definition isinstance_Module (o : pyobj) : bool :=
  match o with PyModule _ _ => true | _ => false end.

Definition isinstance_list (o : pyobj) : bool :=
  match o with PyList _ _ => true | _ => false end.

(** ** Exceptions and the error monad *)

Inductive exn : Type :=
| AssertionError (msg : option string)
| TypeError (msg : string)
| IndexError (msg : string)
| AttributeError (msg : string)
| KeyError (key : string)
| OptimizerRaised (msg : string).

Inductive result (A : Type) : Type :=
| Ok (a : A)
| Raise (e : exn).
Arguments Ok {A} a.
Arguments Raise {A} e.

#[global] Instance result_ret : MRet result := @Ok.
#[global] Instance result_bind : MBind result :=
  λ A B f m, match m with Ok a => f a | Raise e => Raise e end.
#[global] Instance result_fmap : FMap result :=
  λ A B f m, match m with Ok a => Ok (f a) | Raise e => Raise e end.

(** [assert cond, msg] *)
Definition py_assert (cond : bool) (msg : option string) : result unit :=
  if cond then Ok tt else Raise (AssertionError msg).

(** Operands of [assert (a, b)]: the truth value of a tuple is whether it
    has any element, whatever the elements are. *)
Inductive tuple_item : Type :=
| ItemBool (b : bool)
| ItemStr (s : string).

Definition tuple_truthy (t : list tuple_item) : bool :=
  negb (Nat.eqb (length t) 0).

(** [iter(o)], [len(o)], [o[0]] on the objects above. *)
Definition py_iter (o : pyobj) : result (list pyobj) :=
  match o with
  | PyList _ xs | PyTuple _ xs => Ok xs
  | PyModule _ _ | PyOther _ => Raise (TypeError "object is not iterable")
  end.

Definition py_len (o : pyobj) : result nat :=
  match o with
  | PyList _ xs | PyTuple _ xs => Ok (length xs)
  | PyModule _ _ | PyOther _ => Raise (TypeError "object has no len()")
  end.

Definition py_first (o : pyobj) : result pyobj :=
  match o with
  | PyList _ xs | PyTuple _ xs =>
      match xs !! 0%nat with
      | Some x => Ok x
      | None => Raise (IndexError "index out of range")
      end
  | PyModule _ _ | PyOther _ => Raise (TypeError "object is not subscriptable")
  end.

(** [net.parameters()] *)
Definition parameters (net : pyobj) : result (list param) :=
  match net with
  | PyModule _ ps => Ok ps
  | _ => Raise (AttributeError "parameters")
  end.

(** ** The owning container and the call stack

    [vars(container).items()] is an ordered association list; a frame is
    its [f_locals]. *)

Definition container := list (string * pyobj).
Definition frame := list (string * container).

Fixpoint assoc {A : Type} (k : string) (l : list (string * A)) : option A :=
  match l with
  | [] => None
  | (k', v) :: rest => if String.eqb k k' then Some v else assoc k rest
  end.

(** [_infer_parent_container]: [callers] is the stack above
    [OptimizerWrapper.__init__], innermost first; [current_frame.f_back] is
    the frame of [__init__] itself, [f_back.f_back] its caller. *)
Definition _infer_parent_container (callers : list frame) : result container :=
  match callers with
  | [] => Raise (AttributeError "f_locals")
  | caller :: _ =>
      match assoc "self" caller with
      | Some c => Ok c
      | None => Raise (KeyError "self")
      end
  end.

(** ** Attribute resolver *)

Definition _match_condition (multiagent : bool) (networks : pyobj)
    (attr_value : pyobj) : result bool :=
  if negb multiagent then
    nets ← py_iter networks;
    Ok (existsb (λ net, Nat.eqb (py_id attr_value) (py_id net)) nets)
  else
    Ok (Nat.eqb (py_id attr_value) (py_id networks)).

Fixpoint _infer_network_attr_names (multiagent : bool) (networks : pyobj)
    (c : container) : result (list string) :=
  match c with
  | [] => Ok []
  | (attr_name, attr_value) :: rest =>
      b ← _match_condition multiagent networks attr_value;
      names ← _infer_network_attr_names multiagent networks rest;
      Ok (if b : bool then attr_name :: names else names)
  end.

(** ** Arguments of the constructor and of the optimizer classes *)

Section Shapes.
Context {OptClass KwVal StateMap : Type}.

(** [optimizer_cls]: a class, a list, or anything else. *)
Inductive cls_arg : Type :=
| ClsType (c : OptClass)
| ClsList (cs : list cls_arg)
| ClsOther.

Definition kwargs := list (string * KwVal).

(** [optimizer_kwargs]: a dict, a list, or anything else. *)
Inductive kwargs_arg : Type :=
| KwDict (d : kwargs)
| KwList (l : list kwargs_arg)
| KwOther.

(** A parameter group [{"params": ..., **kwargs}]. *)
Inductive group_val : Type :=
| GParams (ps : list param)
| GVal (v : KwVal).

Definition group := list (string * group_val).

(** First positional argument of an optimizer class. *)
Inductive pos_arg : Type :=
| PosParams (ps : list param)
| PosGroups (gs : list group).

Record opt_call : Type := OptCall {
  call_cls : OptClass;
  call_pos : pos_arg;
  call_kwargs : kwargs
}.

(** What [load_state_dict] may be handed and [state_dict] returns. *)
Inductive payload : Type :=
| PDict (d : StateMap)
| PList (l : list payload)
| PTuple (l : list payload)
| POther.

Definition isinstance_cls_list (c : cls_arg) : bool :=
  match c with ClsList _ => true | _ => false end.

Definition isinstance_type (c : cls_arg) : bool :=
  match c with ClsType _ => true | _ => false end.

Definition isinstance_kw_list (k : kwargs_arg) : bool :=
  match k with KwList _ => true | _ => false end.

Definition isinstance_dict (k : kwargs_arg) : bool :=
  match k with KwDict _ => true | _ => false end.

(** [optimizer_cls[i]] and [optimizer_kwargs[i]] for [i] from [enumerate]. *)
Definition cls_getitem (c : cls_arg) (i : nat) : result cls_arg :=
  match c with
  | ClsList cs =>
      match cs !! i with
      | Some x => Ok x
      | None => Raise (IndexError "list index out of range")
      end
  | _ => Raise (TypeError "object is not subscriptable")
  end.

Definition kw_getitem (k : kwargs_arg) (i : nat) : result kwargs_arg :=
  match k with
  | KwList l =>
      match l !! i with
      | Some x => Ok x
      | None => Raise (IndexError "list index out of range")
      end
  | _ => Raise (TypeError "object is not subscriptable")
  end.

(** [**kwargs] needs a mapping; calling needs a class. *)
Definition unpack_kwargs (k : kwargs_arg) : result kwargs :=
  match k with
  | KwDict d => Ok d
  | _ => Raise (TypeError "argument after ** must be a mapping")
  end.

Definition callable (c : cls_arg) : result OptClass :=
  match c with
  | ClsType c => Ok c
  | _ => Raise (TypeError "object is not callable")
  end.

(** [d[k] = v] on an insertion-ordered dict. *)
Fixpoint dict_set {V : Type} (k : string) (v : V) (d : list (string * V))
    : list (string * V) :=
  match d with
  | [] => [(k, v)]
  | (k', v') :: rest =>
      if String.eqb k k' then (k, v) :: rest
      else (k', v') :: dict_set k v rest
  end.

(** [{"params": ps, **kw}] *)
Definition param_group (ps : list param) (kw : kwargs) : group :=
  fold_left (λ d kv, dict_set kv.1 (GVal kv.2) d) kw [("params", GParams ps)].
End Shapes.

Arguments cls_arg : clear implicits.
Arguments kwargs : clear implicits.
Arguments kwargs_arg : clear implicits.
Arguments group_val : clear implicits.
Arguments group : clear implicits.
Arguments pos_arg : clear implicits.
Arguments opt_call : clear implicits.
Arguments payload : clear implicits.

(** ** The optimizer interface (torch.optim.Optimizer)

    Instances are opaque; a method that raises reports the message and the
    instance as the raise left it. [Tensors] stands for the parameter
    values and gradient buffers that [step] and [zero_grad] write. *)

Class Optimizer (OptClass KwVal Opt StateMap Tensors : Type) := {
  class_repr : OptClass → string;
  opt_new : OptClass → pos_arg KwVal → kwargs KwVal → Opt + string;
  opt_type : Opt → OptClass;
  opt_step : Opt → Tensors → Opt * Tensors * option string;
  opt_zero_grad : Opt → Tensors → Opt * Tensors * option string;
  opt_state_dict : Opt → StateMap;
  opt_load_state_dict : Opt → payload StateMap → Opt * option string
}.

(** ** The wrapper *)

Section Wrapper.
Context {OptClass KwVal Opt StateMap Tensors : Type}.
Context {OPT : Optimizer OptClass KwVal Opt StateMap Tensors}.

(** [self.optimizer]: one instance, or the list built for multi-agent. *)
Inductive opt_field : Type :=
| OSingle (o : Opt)
| OList (os : list Opt).

Record OptimizerWrapper : Type := Wrapper {
  optimizer_cls : cls_arg OptClass;
  optimizer_kwargs : kwargs_arg KwVal;
  multiagent : bool;
  networks : pyobj;
  network_names : list string;
  optimizer : opt_field
}.

Record init_args : Type := InitArgs {
  arg_optimizer_cls : cls_arg OptClass;
  arg_networks : pyobj;
  arg_optimizer_kwargs : kwargs_arg KwVal;
  arg_network_names : option (list string);
  arg_multiagent : bool
}.

(** What the interpreter supplies to one constructor call: the frames
    above [__init__] and the identity given to the list [[networks]]
    allocated when a bare module is passed. *)
Record runtime : Type := Runtime {
  rt_callers : list frame;
  rt_fresh : ref
}.

(** Lines 38-46. The [assert] is handed the two-element tuple
    (condition, message). *)
Definition networks_check (nets : pyobj) : bool :=
  match nets with
  | PyList _ items => forallb isinstance_Module items
  | _ => false
  end.

Definition bind_networks (fresh : ref) (nets : pyobj) : result pyobj :=
  if isinstance_Module nets then Ok (PyList fresh [nets])
  else
    _ ← py_assert
          (tuple_truthy
             [ItemBool (networks_check nets);
              ItemStr "Expected a single network or a list of networks."])
          None;
    Ok nets.

(** Lines 50-56. *)
Definition bind_network_names (rt : runtime) (ma : bool) (nets : pyobj)
    (names : option (list string)) : result (list string) :=
  ns ← match names with
       | Some ns => Ok ns
       | None =>
           parent_container ← _infer_parent_container (rt_callers rt);
           _infer_network_attr_names ma nets parent_container
       end;
  _ ← py_assert (negb (Nat.eqb (length ns) 0))
        (Some "No networks found in the parent container.");
  Ok ns.

(** Calling an optimizer class: the call is recorded, then it returns an
    instance or raises. *)
Definition construct (c : opt_call OptClass KwVal)
    : list (opt_call OptClass KwVal) * result Opt :=
  ([c],
   match opt_new (call_cls c) (call_pos c) (call_kwargs c) with
   | inl o => Ok o
   | inr msg => Raise (OptimizerRaised msg)
   end).

(** [optimizer_cls[i] if isinstance(optimizer_cls, list) else optimizer_cls]
    and the same for the kwargs. *)
Definition cls_at (cls : cls_arg OptClass) (i : nat) : result (cls_arg OptClass) :=
  if isinstance_cls_list cls then cls_getitem cls i else Ok cls.

Definition kwargs_at (kw : kwargs_arg KwVal) (i : nat) : result (kwargs_arg KwVal) :=
  if isinstance_kw_list kw then kw_getitem kw i else Ok kw.

(** Lines 66-68, up to the call: choose class and kwargs for index [i],
    evaluate the arguments, then require a callable. *)
Definition per_network_call (cls : cls_arg OptClass) (kw : kwargs_arg KwVal)
    (i : nat) (net : pyobj) : result (opt_call OptClass KwVal) :=
  optimizer ← cls_at cls i;
  kwargs ← kwargs_at kw i;
  ps ← parameters net;
  d ← unpack_kwargs kwargs;
  c ← callable optimizer;
  Ok (OptCall c (PosParams ps) d).

(** Lines 64-68: [for i, net in enumerate(self.networks)]. *)
Fixpoint per_network_loop (cls : cls_arg OptClass) (kw : kwargs_arg KwVal)
    (i : nat) (nets : list pyobj)
    : list (opt_call OptClass KwVal) * result (list Opt) :=
  match nets with
  | [] => ([], Ok [])
  | net :: rest =>
      match per_network_call cls kw i net with
      | Raise e => ([], Raise e)
      | Ok c =>
          match construct c with
          | (tr, Raise e) => (tr, Raise e)
          | (tr, Ok o) =>
              let '(tr', r) := per_network_loop cls kw (S i) rest in
              ((tr ++ tr')%list, cons o <$> r)
          end
      end
  end.

(** Lines 79-82. *)
Fixpoint pooled_groups (kw : kwargs_arg KwVal) (i : nat) (nets : list pyobj)
    : result (list (group KwVal)) :=
  match nets with
  | [] => Ok []
  | net :: rest =>
      kwargs ← kwargs_at kw i;
      ps ← parameters net;
      d ← unpack_kwargs kwargs;
      gs ← pooled_groups kw (S i) rest;
      Ok (param_group ps d :: gs)
  end.

Inductive topology : Type := PER_NETWORK | POOLED | SINGLE.

Definition choose_topology (ma : bool) (n_networks n_names : nat) : topology :=
  let multiple_attrs := Nat.ltb 1 n_names in
  let multiple_networks := Nat.ltb 1 n_networks in
  if ma then PER_NETWORK
  else if multiple_networks && multiple_attrs then POOLED
  else SINGLE.

(** Lines 63-94: everything up to the class calls, per branch. *)
Definition build_optimizer (a : init_args) (nets : pyobj) (names : list string)
    : list (opt_call OptClass KwVal) * result opt_field :=
  let optimizer_cls := arg_optimizer_cls a in
  let optimizer_kwargs := arg_optimizer_kwargs a in
  match py_len nets with
  | Raise e => ([], Raise e)
  | Ok n =>
      match choose_topology (arg_multiagent a) n (length names) with
      | PER_NETWORK =>
          match py_iter nets with
          | Raise e => ([], Raise e)
          | Ok items =>
              let '(tr, r) := per_network_loop optimizer_cls optimizer_kwargs 0 items in
              (tr, OList <$> r)
          end
      | POOLED =>
          match
            (_ ← py_assert (Nat.eqb n (length names))
                   (Some "Number of networks and network attribute names do not match.");
             _ ← py_assert (isinstance_type optimizer_cls)
                   (Some "Expected a single optimizer class for multiple networks.");
             items ← py_iter nets;
             opt_args ← pooled_groups optimizer_kwargs 0 items;
             c ← callable optimizer_cls;
             Ok (OptCall c (PosGroups opt_args) []))
          with
          | Raise e => ([], Raise e)
          | Ok c => let '(tr, r) := construct c in (tr, OSingle <$> r)
          end
      | SINGLE =>
          match
            (_ ← py_assert (isinstance_type optimizer_cls)
                   (Some "Expected a single optimizer class for a single network.");
             _ ← py_assert (isinstance_dict optimizer_kwargs)
                   (Some "Expected a single dictionary of optimizer keyword arguments.");
             net ← py_first nets;
             ps ← parameters net;
             d ← unpack_kwargs optimizer_kwargs;
             c ← callable optimizer_cls;
             Ok (OptCall c (PosParams ps) d))
          with
          | Raise e => ([], Raise e)
          | Ok c => let '(tr, r) := construct c in (tr, OSingle <$> r)
          end
      end
  end.

(** [OptimizerWrapper.__init__]: the class calls made, and the wrapper or
    the exception that leaves the constructor. *)
Definition __init__ (rt : runtime) (a : init_args)
    : list (opt_call OptClass KwVal) * result OptimizerWrapper :=
  match
    (nets ← bind_networks (rt_fresh rt) (arg_networks a);
     names ← bind_network_names rt (arg_multiagent a) nets (arg_network_names a);
     Ok (nets, names))
  with
  | Raise e => ([], Raise e)
  | Ok (nets, names) =>
      let '(tr, r) := build_optimizer a nets names in
      (tr,
       (λ o, Wrapper (arg_optimizer_cls a) (arg_optimizer_kwargs a)
               (arg_multiagent a) nets names o) <$> r)
  end.

(** The topology of a wrapper, from the same three facts the constructor
    branched on. *)
Definition topology_of (w : OptimizerWrapper) : result topology :=
  n ← py_len (networks w);
  Ok (choose_topology (multiagent w) n (length (network_names w))).

(** *** Delegation surface

    A method returns the wrapper as the call left it, together with the
    exception that left the call, if any. *)

Definition set_optimizer (w : OptimizerWrapper) (f : opt_field) : OptimizerWrapper :=
  Wrapper (optimizer_cls w) (optimizer_kwargs w) (multiagent w) (networks w)
    (network_names w) f.

(** [l[index]] on a list, negative indices counting from the end. *)
Definition list_getitem {A : Type} (l : list A) (index : Z) : result A :=
  let n := Z.of_nat (length l) in
  let i := if (index <? 0)%Z then (index + n)%Z else index in
  if ((0 <=? i) && (i <? n))%Z then
    match l !! Z.to_nat i with
    | Some x => Ok x
    | None => Raise (IndexError "list index out of range")
    end
  else Raise (IndexError "list index out of range").

Definition field_getitem (f : opt_field) (index : Z) : result Opt :=
  match f with
  | OList os => list_getitem os index
  | OSingle _ => Raise (TypeError "object is not subscriptable")
  end.

(** [repr(type(self.optimizer))] *)
Definition field_type_repr (f : opt_field) : string :=
  match f with
  | OList _ => "<class 'list'>"
  | OSingle o => class_repr (opt_type o)
  end.

Definition __getitem__ (w : OptimizerWrapper) (index : Z) : result Opt :=
  match field_getitem (optimizer w) index with
  | Raise (TypeError _) =>
      Raise (TypeError ("Can't access item of a single "
                        ++ field_type_repr (optimizer w) ++ " object."))
  | r => r
  end.

Definition __iter__ (w : OptimizerWrapper) : result (list Opt) :=
  match optimizer w with
  | OList os => Ok os
  | OSingle _ => Raise (TypeError "object is not iterable")
  end.

Definition field_len (f : opt_field) : result nat :=
  match f with
  | OList os => Ok (length os)
  | OSingle _ => Raise (TypeError "object has no len()")
  end.

(** Lines 152-153: the instances as left, the payloads handed to the
    instances in order, and the exception if one was raised. *)
Fixpoint load_each (os : list Opt) (i : nat) (state_dict : list (payload StateMap))
    : list Opt * list (payload StateMap) * option exn :=
  match os with
  | [] => ([], [], None)
  | opt :: rest =>
      match state_dict !! i with
      | None => (opt :: rest, [], Some (IndexError "list index out of range"))
      | Some sd =>
          match opt_load_state_dict opt sd with
          | (opt', Some msg) => (opt' :: rest, [sd], Some (OptimizerRaised msg))
          | (opt', None) =>
              let '(rest', log, e) := load_each rest (S i) state_dict in
              (opt' :: rest', sd :: log, e)
          end
      end
  end.

Definition load_state_dict (w : OptimizerWrapper) (state_dict : payload StateMap)
    : OptimizerWrapper * list (payload StateMap) * option exn :=
  if multiagent w then
    match
      (ok ← match state_dict with
            | PList l => n ← field_len (optimizer w); Ok (Nat.eqb (length l) n)
            | _ => Ok false
            end;
       py_assert ok
         (Some "Expected a list of optimizer state dictionaries for multi-agent optimizers."))
    with
    | Raise e => (w, [], Some e)
    | Ok _ =>
        match optimizer w, state_dict with
        | OList optimizers, PList l =>
            let '(os', log, e) := load_each optimizers 0 l in
            (set_optimizer w (OList os'), log, e)
        | _, _ => (w, [], Some (TypeError "object is not iterable"))
        end
    end
  else
    match state_dict with
    | PDict _ =>
        match optimizer w with
        | OSingle o =>
            let '(o', e) := opt_load_state_dict o state_dict in
            (set_optimizer w (OSingle o'), [state_dict], OptimizerRaised <$> e)
        | OList _ => (w, [], Some (AttributeError "load_state_dict"))
        end
    | _ =>
        (w, [],
         Some (AssertionError
                 (Some "Expected a single optimizer state dictionary for single-agent optimizers.")))
    end.

Definition state_dict (w : OptimizerWrapper) : result (payload StateMap) :=
  if multiagent w then
    optimizers ← __iter__ w;
    Ok (PList (map (λ opt, PDict (opt_state_dict opt)) optimizers))
  else
    match optimizer w with
    | OSingle o => Ok (PDict (opt_state_dict o))
    | OList _ => Raise (AttributeError "state_dict")
    end.

(** [for opt in optimizers: opt.m()] for a method [m] writing tensors. *)
Fixpoint for_each (m : Opt → Tensors → Opt * Tensors * option string)
    (os : list Opt) (t : Tensors) : list Opt * Tensors * option exn :=
  match os with
  | [] => ([], t, None)
  | opt :: rest =>
      match m opt t with
      | (opt', t', Some msg) => (opt' :: rest, t', Some (OptimizerRaised msg))
      | (opt', t', None) =>
          let '(rest', t'', e) := for_each m rest t' in
          (opt' :: rest', t'', e)
      end
  end.

Definition delegate (m : Opt → Tensors → Opt * Tensors * option string)
    (name : string) (w : OptimizerWrapper) (t : Tensors)
    : OptimizerWrapper * Tensors * option exn :=
  if multiagent w then
    match optimizer w with
    | OList optimizers =>
        let '(os', t', e) := for_each m optimizers t in
        (set_optimizer w (OList os'), t', e)
    | OSingle _ => (w, t, Some (TypeError "object is not iterable"))
    end
  else
    match optimizer w with
    | OSingle o =>
        let '(o', t', e) := m o t in
        (set_optimizer w (OSingle o'), t', OptimizerRaised <$> e)
    | OList _ => (w, t, Some (AttributeError name))
    end.

Definition zero_grad := delegate opt_zero_grad "zero_grad".
Definition step := delegate opt_step "step".

(** Any sequence of later calls on one wrapper. *)
Inductive op : Type :=
| OpStep
| OpZeroGrad
| OpStateDict
| OpLoadStateDict (state_dict : payload StateMap).

Definition run_op (o : op) (st : OptimizerWrapper * Tensors)
    : OptimizerWrapper * Tensors :=
  let '(w, t) := st in
  match o with
  | OpStep => (step w t).1
  | OpZeroGrad => (zero_grad w t).1
  | OpStateDict => (w, t)
  | OpLoadStateDict sd => ((load_state_dict w sd).1.1, t)
  end.

Definition run_ops (ops : list op) (st : OptimizerWrapper * Tensors)
    : OptimizerWrapper * Tensors :=
  fold_left (λ st o, run_op o st) ops st.

(** The shape of [self.optimizer] against the flag. *)
Definition is_sequence (f : opt_field) : bool :=
  match f with OList _ => true | OSingle _ => false end.

Definition instances (f : opt_field) : list Opt :=
  match f with OList os => os | OSingle o => [o] end.

(** What a later call could not change without reassigning a field. *)
Definition same_binding (w w' : OptimizerWrapper) : Prop :=
  optimizer_cls w' = optimizer_cls w
  ∧ optimizer_kwargs w' = optimizer_kwargs w
  ∧ multiagent w' = multiagent w
  ∧ networks w' = networks w
  ∧ network_names w' = network_names w
  ∧ is_sequence (optimizer w') = is_sequence (optimizer w)
  ∧ length (instances (optimizer w')) = length (instances (optimizer w)).

(** The instance [dst] accepts the serialized state of [src] and then
    serializes to the same state. *)
Definition round_trips (src dst : Opt) : Prop :=
  let r := opt_load_state_dict dst (PDict (opt_state_dict src)) in
  r.2 = None ∧ opt_state_dict r.1 = opt_state_dict src.

End Wrapper.

(** ** The resolver's contract, as the specification words it

    The field names whose value is the same object as some target, and the
    field names whose value is the same object as one given object. *)

Definition fields_identical_to_any (targets : list pyobj) (c : container)
    : list string :=
  map fst
    (List.filter
       (λ kv, existsb (λ net, Nat.eqb (py_id kv.2) (py_id net)) targets) c).

Definition fields_identical_to (target : pyobj) (c : container) : list string :=
  map fst (List.filter (λ kv, Nat.eqb (py_id kv.2) (py_id target)) c).

(** The check the constructor advertises for [networks]. *)
Definition single_network_or_list (nets : pyobj) : bool :=
  isinstance_Module nets || networks_check nets.

(** Exceptions the guard on [networks] could raise: the assertion with the
    advertised text, or the bare assertion of a falsy tuple. *)
Definition networks_guard_error (e : exn) : Prop :=
  e = AssertionError (Some "Expected a single network or a list of networks.")
  ∨ e = AssertionError None.

(** ** A reference optimizer

    A small optimizer in the shape of torch's: it refuses an empty
    parameter list, counts its steps, and its serialized state is that
    count. Closed examples below run the wrapper over it. *)

Inductive ref_cls : Type := SGD | Adam.

Record ref_opt : Type := RefOpt {
  ro_cls : ref_cls;
  ro_pos : pos_arg Z;
  ro_kwargs : kwargs Z;
  ro_steps : nat
}.

Definition ref_repr (c : ref_cls) : string :=
  match c with
  | SGD => "<class 'torch.optim.sgd.SGD'>"
  | Adam => "<class 'torch.optim.adam.Adam'>"
  end.

Definition ref_new (c : ref_cls) (pos : pos_arg Z) (kw : kwargs Z) : ref_opt + string :=
  match pos with
  | PosParams [] | PosGroups [] => inr "optimizer got an empty parameter list"
  | _ => inl (RefOpt c pos kw 0)
  end.

Definition ref_step (o : ref_opt) (t : nat) : ref_opt * nat * option string :=
  (RefOpt (ro_cls o) (ro_pos o) (ro_kwargs o) (S (ro_steps o)), S t, None).

Definition ref_zero_grad (o : ref_opt) (t : nat) : ref_opt * nat * option string :=
  (o, t, None).

Definition ref_load (o : ref_opt) (p : payload nat) : ref_opt * option string :=
  match p with
  | PDict n => (RefOpt (ro_cls o) (ro_pos o) (ro_kwargs o) n, None)
  | _ => (o, Some "state_dict is not a mapping")
  end.

#[global] Instance ref_optimizer : Optimizer ref_cls Z ref_opt nat nat := {
  class_repr := ref_repr;
  opt_new := ref_new;
  opt_type := ro_cls;
  opt_step := ref_step;
  opt_zero_grad := ref_zero_grad;
  opt_state_dict := ro_steps;
  opt_load_state_dict := ref_load
}.

(** Two modules with the same parameters and different identities, and an
    individual that stores the first under [actor]. *)
Definition module_A : pyobj := PyModule 1 [10; 11].
Definition module_B : pyobj := PyModule 2 [10; 11].
Definition module_C : pyobj := PyModule 3 [12].

Definition owner_of_A : container := [("gamma", PyOther 5); ("actor", module_A)].

Definition in_owner (c : container) : runtime :=
  Runtime [[("self", c)]] 100.

Definition lr (z : Z) : kwargs_arg Z := KwDict [("lr", z)].

(** Constructor calls used in the examples. *)
Definition args_single : init_args :=
  InitArgs (ClsType Adam) module_A (lr 1) None false.

Definition args_unowned : init_args :=
  InitArgs (ClsType Adam) module_B (lr 1) None false.

Definition args_tuple : init_args :=
  InitArgs (ClsType Adam) (PyTuple 9 [module_A]) (lr 1) None false.

Definition args_two_networks_one_name : init_args :=
  InitArgs (ClsType Adam) (PyList 7 [module_A; module_C]) (lr 1)
    (Some ["actor"]) false.

Definition args_pooled : init_args :=
  InitArgs (ClsType SGD) (PyList 7 [module_A; module_C]) (KwList [lr 1; lr 2])
    (Some ["actor"; "critic"]) false.

Definition args_multi : init_args :=
  InitArgs (ClsList [ClsType Adam; ClsType SGD]) (PyList 7 [module_A; module_C])
    (KwList [lr 1; lr 2]) (Some ["agents"]) true.

Definition args_multi_shared : init_args :=
  InitArgs (ClsType SGD) (PyList 8 [module_A; module_C]) (lr 3)
    (Some ["agents"]) true.

Definition args_multi_bare : init_args :=
  InitArgs (ClsType Adam) module_A (lr 1) None true.

Definition args_class_list : init_args :=
  InitArgs (ClsList [ClsType Adam]) module_A (lr 1) None false.

Definition args_multi_empty : @init_args ref_cls Z :=
  InitArgs ClsOther (PyList 7 []) KwOther (Some ["agents"]) true.

Definition args_single_empty : init_args :=
  InitArgs (ClsType Adam) (PyList 7 []) (lr 1) (Some ["actor"]) false.

Definition args_three_names : init_args :=
  InitArgs (ClsType Adam) (PyList 7 [module_A; module_C]) (lr 1)
    (Some ["actor"; "critic"; "target"]) false.

Definition args_multi_three : init_args :=
  InitArgs (ClsType SGD) (PyList 7 [module_A; module_B; module_C])
    (KwList [lr 1; KwDict []; lr 2]) (Some ["agents"]) true.

(** The reference optimizer, except that an instance built without a
    learning rate refuses to step. *)
Definition strict_step (o : ref_opt) (t : nat) : ref_opt * nat * option string :=
  match assoc "lr" (ro_kwargs o) with
  | Some _ => ref_step o t
  | None => (o, t, Some "no learning rate")
  end.

Definition strict_optimizer : Optimizer ref_cls Z ref_opt nat nat := {|
  class_repr := ref_repr;
  opt_new := ref_new;
  opt_type := ro_cls;
  opt_step := strict_step;
  opt_zero_grad := ref_zero_grad;
  opt_state_dict := ro_steps;
  opt_load_state_dict := ref_load
|}.

(** * Properties *)

(** ** Attribute resolver *)

Lemma infer_names_single_agent (c : container) (nets : pyobj) (items : list pyobj) :
  py_iter nets = Ok items →
  _infer_network_attr_names false nets c = Ok (fields_identical_to_any items c).
Proof.
  intros Hit. unfold fields_identical_to_any.
  induction c as [|[n v] c IH]; [reflexivity|].
  cbn [_infer_network_attr_names]. unfold _match_condition at 1.
  cbn [negb]. rewrite Hit, IH. cbn.
  destruct (existsb _ items); reflexivity.
Qed.

Lemma infer_names_multi_agent (c : container) (nets : pyobj) :
  _infer_network_attr_names true nets c = Ok (fields_identical_to nets c).
Proof.
  unfold fields_identical_to.
  induction c as [|[n v] c IH]; [reflexivity|].
  cbn [_infer_network_attr_names]. unfold _match_condition at 1.
  cbn [negb]. rewrite IH. cbn.
  destruct (Nat.eqb _ _); reflexivity.
Qed.

Lemma elem_of_fields_identical_to_any (targets : list pyobj) (c : container) (n : string) :
  n ∈ fields_identical_to_any targets c ↔
  ∃ v net, (n, v) ∈ c ∧ net ∈ targets ∧ py_id v = py_id net.
Proof.
  unfold fields_identical_to_any. rewrite list_elem_of_fmap. split.
  - intros [[n' v] [-> Hin]]. apply list_elem_of_In, filter_In in Hin.
    destruct Hin as [Hin Hex]. apply existsb_exists in Hex.
    destruct Hex as [net [Hnet Heq]]. apply Nat.eqb_eq in Heq.
    exists v, net. rewrite !list_elem_of_In. auto.
  - intros (v & net & Hin & Hnet & Heq). exists (n, v). split; [reflexivity|].
    apply list_elem_of_In, filter_In. split; [by apply list_elem_of_In|].
    apply existsb_exists. exists net. split; [by apply list_elem_of_In|].
    by apply Nat.eqb_eq.
Qed.

Lemma elem_of_fields_identical_to (target : pyobj) (c : container) (n : string) :
  n ∈ fields_identical_to target c ↔ ∃ v, (n, v) ∈ c ∧ py_id v = py_id target.
Proof.
  unfold fields_identical_to. rewrite list_elem_of_fmap. split.
  - intros [[n' v] [-> Hin]]. apply list_elem_of_In, filter_In in Hin.
    destruct Hin as [Hin Heq]. apply Nat.eqb_eq in Heq.
    exists v. rewrite list_elem_of_In. auto.
  - intros (v & Hin & Heq). exists (n, v). split; [reflexivity|].
    apply list_elem_of_In, filter_In. split; [by apply list_elem_of_In|].
    by apply Nat.eqb_eq.
Qed.

(** C3. The resolver returns, in the container's order, exactly the field
    names whose value has the identity of one of the target networks
    (single-agent mode) and exactly those whose value has the identity of
    the whole networks object (multi-agent mode). Contents play no part: a
    field whose value has another identity than every target is not
    returned, whatever its contents. *)
Theorem resolver_matches_by_identity
    (c : container) (nets : pyobj) (items : list pyobj) :
  py_iter nets = Ok items →
  _infer_network_attr_names false nets c = Ok (fields_identical_to_any items c)
  ∧ _infer_network_attr_names true nets c = Ok (fields_identical_to nets c)
  ∧ (∀ n, n ∈ fields_identical_to_any items c ↔
          ∃ v net, (n, v) ∈ c ∧ net ∈ items ∧ py_id v = py_id net)
  ∧ (∀ n, n ∈ fields_identical_to nets c ↔
          ∃ v, (n, v) ∈ c ∧ py_id v = py_id nets)
  ∧ ((∀ n v net, (n, v) ∈ c → net ∈ items → py_id v ≠ py_id net) →
     _infer_network_attr_names false nets c = Ok []).
Proof.
  intros Hit. repeat split.
  - by apply infer_names_single_agent.
  - apply infer_names_multi_agent.
  - by apply elem_of_fields_identical_to_any.
  - by apply elem_of_fields_identical_to_any.
  - by apply elem_of_fields_identical_to.
  - by apply elem_of_fields_identical_to.
  - intros Hdistinct. rewrite (infer_names_single_agent _ _ _ Hit).
    destruct (fields_identical_to_any items c) as [|n l] eqn:E; [reflexivity|].
    assert (Hn : n ∈ fields_identical_to_any items c) by (rewrite E; left).
    apply elem_of_fields_identical_to_any in Hn.
    destruct Hn as (v & net & Hin & Hnet & Heq).
    by destruct (Hdistinct n v net).
Qed.

(** A container holding only [module_A], asked about the value-equal
    [module_B]: nothing is returned in either mode. *)
Lemma resolver_matches_by_identity_witness :
  same_contents module_A module_B
  ∧ _infer_network_attr_names false (PyList 100 [module_B]) owner_of_A = Ok []
  ∧ _infer_network_attr_names true (PyList 100 [module_B]) owner_of_A = Ok []
  ∧ _infer_network_attr_names false (PyList 100 [module_A]) owner_of_A = Ok ["actor"].
Proof.
  destruct (resolver_matches_by_identity owner_of_A (PyList 100 [module_B])
              [module_B] eq_refl) as (H1 & H2 & _).
  destruct (resolver_matches_by_identity owner_of_A (PyList 100 [module_A])
              [module_A] eq_refl) as (H3 & _).
  split; [reflexivity|]. split; [exact H1|]. split; [exact H2|exact H3].
Defined.

(** ** Construction *)

Section Construction.
Context {OptClass KwVal Opt StateMap Tensors : Type}.
Context {OPT : Optimizer OptClass KwVal Opt StateMap Tensors}.

Implicit Types (a : @init_args OptClass KwVal) (w : @OptimizerWrapper OptClass KwVal Opt).
Implicit Types (tr : list (opt_call OptClass KwVal)) (rt : runtime).

(** The guard of lines 41-45 asserts a two-element tuple. *)
Lemma bind_networks_ok (fresh : ref) (nets : pyobj) :
  bind_networks fresh nets
  = Ok (if isinstance_Module nets then PyList fresh [nets] else nets).
Proof. unfold bind_networks. by destruct (isinstance_Module nets). Qed.

Lemma bind_network_names_ok rt (ma : bool) (nets : pyobj) names ns :
  bind_network_names rt ma nets names = Ok ns → ns ≠ [].
Proof.
  unfold bind_network_names. intros H0.
  destruct (match names with Some _ => _ | None => _ end) as [l|e]; [|done].
  cbn in H0. destruct l; [done|]. cbn in H0. by inversion H0.
Qed.

Lemma init_ok_inv rt a tr w :
  __init__ rt a = (tr, Ok w) →
  ∃ nets names f,
    bind_networks (rt_fresh rt) (arg_networks a) = Ok nets
    ∧ bind_network_names rt (arg_multiagent a) nets (arg_network_names a) = Ok names
    ∧ build_optimizer a nets names = (tr, Ok f)
    ∧ w = Wrapper (arg_optimizer_cls a) (arg_optimizer_kwargs a)
            (arg_multiagent a) nets names f.
Proof.
  unfold __init__. intros H0.
  destruct (bind_networks _ _) as [nets|e] eqn:En; [|done]. cbn in H0.
  destruct (bind_network_names _ _ _ _) as [names|e] eqn:Ens; [|done]. cbn in H0.
  destruct (build_optimizer a nets names) as [tr' [f|e]] eqn:Eb; cbn in H0; [|done].
  inversion H0; subst. exists nets, names, f. auto.
Qed.

Lemma not_guard_TypeError m : ¬ networks_guard_error (TypeError m).
Proof. intros [Heq|Heq]; inversion Heq. Qed.
Lemma not_guard_IndexError m : ¬ networks_guard_error (IndexError m).
Proof. intros [Heq|Heq]; inversion Heq. Qed.
Lemma not_guard_AttributeError m : ¬ networks_guard_error (AttributeError m).
Proof. intros [Heq|Heq]; inversion Heq. Qed.
Lemma not_guard_KeyError m : ¬ networks_guard_error (KeyError m).
Proof. intros [Heq|Heq]; inversion Heq. Qed.
Lemma not_guard_OptimizerRaised m : ¬ networks_guard_error (OptimizerRaised m).
Proof. intros [Heq|Heq]; inversion Heq. Qed.

Create HintDb guard.

#[local] Hint Resolve not_guard_TypeError not_guard_IndexError not_guard_AttributeError
  not_guard_KeyError not_guard_OptimizerRaised : guard.

Ltac raise_inv H :=
  repeat match type of H with
  | Raise _ = Raise _ => inversion H; subst; clear H
  | Ok _ = Raise _ => discriminate H
  | (_, _) = (_, _) => inversion H; subst; clear H
  | mbind _ ?m = _ => let E := fresh "E" in destruct m eqn:E; cbn in H
  | fmap _ ?m = _ => let E := fresh "E" in destruct m eqn:E; cbn in H
  end.

Lemma py_iter_raise o e : py_iter o = Raise e → ¬ networks_guard_error e.
Proof. destruct o; cbn; intros H0; raise_inv H0; auto with guard. Qed.
Lemma py_len_raise o e : py_len o = Raise e → ¬ networks_guard_error e.
Proof. destruct o; cbn; intros H0; raise_inv H0; auto with guard. Qed.
Lemma py_first_raise o e : py_first o = Raise e → ¬ networks_guard_error e.
Proof.
  destruct o; cbn; intros H0; raise_inv H0; auto with guard;
    destruct items; cbn in H0; raise_inv H0; auto with guard.
Qed.
Lemma parameters_raise o e : parameters o = Raise e → ¬ networks_guard_error e.
Proof. destruct o; cbn; intros H0; raise_inv H0; auto with guard. Qed.
Lemma unpack_kwargs_raise (k : kwargs_arg KwVal) e :
  unpack_kwargs k = Raise e → ¬ networks_guard_error e.
Proof. destruct k; cbn; intros H0; raise_inv H0; auto with guard. Qed.
Lemma callable_raise (c : cls_arg OptClass) e :
  callable c = Raise e → ¬ networks_guard_error e.
Proof. destruct c; cbn; intros H0; raise_inv H0; auto with guard. Qed.
Lemma cls_at_raise (c : cls_arg OptClass) i e :
  cls_at c i = Raise e → ¬ networks_guard_error e.
Proof.
  destruct c; cbn; intros H0; raise_inv H0; auto with guard.
  destruct (cs !! i); raise_inv H0; auto with guard.
Qed.
Lemma kwargs_at_raise (k : kwargs_arg KwVal) i e :
  kwargs_at k i = Raise e → ¬ networks_guard_error e.
Proof.
  destruct k; cbn; intros H0; raise_inv H0; auto with guard.
  destruct (l !! i); raise_inv H0; auto with guard.
Qed.
Lemma construct_raise (c : opt_call OptClass KwVal) tr e :
  construct c = (tr, Raise e) → ¬ networks_guard_error e.
Proof.
  unfold construct. intros H0. destruct (opt_new _ _ _); inversion H0.
  auto with guard.
Qed.

#[local] Hint Resolve py_iter_raise py_len_raise py_first_raise parameters_raise
  unpack_kwargs_raise callable_raise cls_at_raise kwargs_at_raise
  construct_raise : guard.

Lemma assert_msg_raise (b : bool) (m : string) e :
  py_assert b (Some m) = Raise e →
  m ≠ "Expected a single network or a list of networks." →
  ¬ networks_guard_error e.
Proof.
  destruct b; cbn; intros H0 Hm; inversion H0; subst.
  intros [Heq|Heq]; inversion Heq. by subst.
Qed.

Lemma per_network_call_raise cls kw i net e :
  per_network_call (OptClass:=OptClass) (KwVal:=KwVal) cls kw i net = Raise e →
  ¬ networks_guard_error e.
Proof.
  unfold per_network_call. intros H0. raise_inv H0; eauto with guard.
Qed.

Lemma per_network_loop_raise cls kw nets : ∀ i tr e,
  per_network_loop cls kw i nets = (tr, Raise e) → ¬ networks_guard_error e.
Proof.
  induction nets as [|net rest IH]; intros i tr e H0; [done|].
  cbn [per_network_loop] in H0.
  destruct (per_network_call cls kw i net) as [c|e'] eqn:Ec.
  - destruct (construct c) as [tr1 [o|e1]] eqn:Eo.
    + destruct (per_network_loop cls kw (S i) rest) as [tr2 [os|e2]] eqn:El;
        cbn in H0; inversion H0; subst. eauto.
    + inversion H0; subst. eauto with guard.
  - inversion H0; subst. by eapply per_network_call_raise.
Qed.

Lemma pooled_groups_raise kw nets : ∀ i e,
  pooled_groups (KwVal:=KwVal) kw i nets = Raise e → ¬ networks_guard_error e.
Proof.
  induction nets as [|net rest IH]; intros i e H0; [done|].
  cbn [pooled_groups] in H0. raise_inv H0; eauto with guard.
Qed.

#[local] Hint Resolve per_network_call_raise per_network_loop_raise
  pooled_groups_raise : guard.
#[local] Hint Extern 1 (¬ networks_guard_error _) =>
  (eapply assert_msg_raise; [eassumption | discriminate]) : guard.

Lemma build_optimizer_raise a nets names tr e :
  build_optimizer a nets names = (tr, Raise e) → ¬ networks_guard_error e.
Proof.
  unfold build_optimizer. intros H0.
  destruct (py_len nets) as [n|e'] eqn:El;
    [|inversion H0; subst; eauto with guard].
  destruct (choose_topology _ _ _).
  - destruct (py_iter nets) as [items|e'] eqn:Ei;
      [|inversion H0; subst; eauto with guard].
    destruct (per_network_loop _ _ 0 items) as [tr' [os|e']] eqn:Ep;
      cbn in H0; inversion H0; subst.
    eauto with guard.
  - match type of H0 with
    | match ?m with _ => _ end = _ => destruct m as [c|e'] eqn:Em
    end.
    + destruct (construct c) as [tr' [o|e']] eqn:Ec; cbn in H0;
        inversion H0; subst. eauto with guard.
    + inversion H0; subst. clear H0. raise_inv Em; eauto with guard.
  - match type of H0 with
    | match ?m with _ => _ end = _ => destruct m as [c|e'] eqn:Em
    end.
    + destruct (construct c) as [tr' [o|e']] eqn:Ec; cbn in H0;
        inversion H0; subst. eauto with guard.
    + inversion H0; subst. clear H0. raise_inv Em; eauto with guard.
Qed.

Lemma infer_parent_container_raise callers e :
  _infer_parent_container callers = Raise e → ¬ networks_guard_error e.
Proof.
  destruct callers as [|caller rest]; cbn; intros H0.
  - inversion H0; auto with guard.
  - destruct (assoc "self" caller); inversion H0; auto with guard.
Qed.

Lemma infer_network_attr_names_raise ma nets (c : container) e :
  _infer_network_attr_names ma nets c = Raise e → ¬ networks_guard_error e.
Proof.
  induction c as [|[n v] c IH]; cbn [_infer_network_attr_names]; intros H0;
    [done|].
  raise_inv H0; eauto.
  unfold _match_condition in E. destruct (negb ma); raise_inv E.
  eauto with guard.
Qed.

Lemma bind_network_names_raise rt ma nets names e :
  bind_network_names rt ma nets names = Raise e → ¬ networks_guard_error e.
Proof.
  unfold bind_network_names. intros H0. raise_inv H0; eauto with guard.
  destruct names as [ns|]; raise_inv E;
    eauto using infer_parent_container_raise, infer_network_attr_names_raise.
Qed.

Lemma init_raise rt a tr e :
  __init__ rt a = (tr, Raise e) → ¬ networks_guard_error e.
Proof.
  unfold __init__. rewrite bind_networks_ok. cbn [mbind result_bind].
  intros H0.
  destruct (bind_network_names _ _ _ _) as [names|e'] eqn:Ens; cbn in H0.
  - destruct (build_optimizer _ _ _) as [tr' [f|e']] eqn:Eb; cbn in H0;
      inversion H0; subst. by eapply build_optimizer_raise.
  - inversion H0; subst. by eapply bind_network_names_raise.
Qed.

(** C9. The guard on [networks] asserts a non-empty tuple, which is always
    true: for a value that is neither a module nor a list of modules the
    constructor keeps the value as it is in [self.networks], and whatever
    construction raises later is not the guard's assertion. *)
Theorem networks_guard_is_vacuous rt a :
  single_network_or_list (arg_networks a) = false →
  tuple_truthy
    [ItemBool (networks_check (arg_networks a));
     ItemStr "Expected a single network or a list of networks."] = true
  ∧ bind_networks (rt_fresh rt) (arg_networks a) = Ok (arg_networks a)
  ∧ (∀ tr e, __init__ rt a = (tr, Raise e) → ¬ networks_guard_error e)
  ∧ (∀ tr w, __init__ rt a = (tr, Ok w) → networks w = arg_networks a).
Proof.
  intros Hbad. apply orb_false_iff in Hbad. destruct Hbad as [Hmod _].
  split; [reflexivity|]. split; [|split].
  - by rewrite bind_networks_ok, Hmod.
  - intros tr e. apply init_raise.
  - intros tr w Hw. apply init_ok_inv in Hw.
    destruct Hw as (nets & names & f & Hn & _ & _ & ->).
    rewrite bind_networks_ok, Hmod in Hn. by inversion Hn.
Qed.

(** C2. Without explicit names, a resolution that finds no field makes the
    constructor raise the assertion on [network_names] before any optimizer
    class has been called; and every wrapper that is constructed has at
    least one name. *)
Theorem construction_requires_names rt a (nets : pyobj) (c : container) :
  arg_network_names a = None →
  bind_networks (rt_fresh rt) (arg_networks a) = Ok nets →
  _infer_parent_container (rt_callers rt) = Ok c →
  _infer_network_attr_names (arg_multiagent a) nets c = Ok [] →
  __init__ rt a
  = ([], Raise (AssertionError (Some "No networks found in the parent container.")))
  ∧ (∀ rt' a' tr w, __init__ rt' a' = (tr, Ok w) → network_names w ≠ []).
Proof.
  intros Hnone Hnets Hc Hempty. split.
  - unfold __init__, bind_network_names.
    rewrite Hnets, Hnone. cbn [mbind result_bind]. rewrite Hc.
    cbn [mbind result_bind]. rewrite Hempty. reflexivity.
  - intros rt' a' tr w Hw. apply init_ok_inv in Hw.
    destruct Hw as (nets' & names & f & _ & Hns & _ & ->). cbn.
    by eapply bind_network_names_ok.
Qed.

End Construction.

(** ** The three branches of the constructor *)

Section Branches.
Context {OptClass KwVal Opt StateMap Tensors : Type}.
Context {OPT : Optimizer OptClass KwVal Opt StateMap Tensors}.

Implicit Types (a : @init_args OptClass KwVal) (w : @OptimizerWrapper OptClass KwVal Opt).
Implicit Types (tr : list (opt_call OptClass KwVal)) (rt : runtime).
Implicit Types (cls : cls_arg OptClass) (kw : kwargs_arg KwVal).

Lemma construct_ok (c : opt_call OptClass KwVal) tr (o : Opt) :
  construct c = (tr, Ok o) →
  tr = [c] ∧ opt_new (call_cls c) (call_pos c) (call_kwargs c) = inl o.
Proof.
  unfold construct. intros H0.
  destruct (opt_new _ _ _) as [o'|msg]; inversion H0; subst. auto.
Qed.

Lemma cls_at_type cls i (c : OptClass) :
  cls_at cls i = Ok (ClsType c) →
  match cls with
  | ClsList cs => cs !! i = Some (ClsType c)
  | _ => cls = ClsType c
  end.
Proof.
  destruct cls as [c'|cs|]; cbn; intros H0.
  - by inversion H0.
  - destruct (cs !! i); by inversion H0.
  - by inversion H0.
Qed.

Lemma kwargs_at_dict kw i (d : kwargs KwVal) :
  kwargs_at kw i = Ok (KwDict d) →
  match kw with
  | KwList l => l !! i = Some (KwDict d)
  | _ => kw = KwDict d
  end.
Proof.
  destruct kw as [d'|l|]; cbn; intros H0.
  - by inversion H0.
  - destruct (l !! i); by inversion H0.
  - by inversion H0.
Qed.

Lemma per_network_call_ok cls kw i net (c : opt_call OptClass KwVal) :
  per_network_call cls kw i net = Ok c →
  ∃ k d ps,
    cls_at cls i = Ok (ClsType k) ∧ kwargs_at kw i = Ok (KwDict d)
    ∧ parameters net = Ok ps ∧ c = OptCall k (PosParams ps) d.
Proof.
  unfold per_network_call. intros H0.
  destruct (cls_at cls i) as [optimizer|] eqn:Ec; [|done]. cbn in H0.
  destruct (kwargs_at kw i) as [kwargs'|] eqn:Ek; [|done]. cbn in H0.
  destruct (parameters net) as [ps|] eqn:Ep; [|done]. cbn in H0.
  destruct kwargs' as [d| |]; try done. cbn in H0.
  destruct optimizer as [k| |]; try done. cbn in H0.
  inversion H0; subst. exists k, d, ps. auto.
Qed.

Lemma per_network_loop_ok cls kw nets : ∀ i tr (os : list Opt),
  per_network_loop cls kw i nets = (tr, Ok os) →
  length os = length nets ∧ length tr = length nets
  ∧ ∀ j net, nets !! j = Some net →
      ∃ c o, per_network_call cls kw (i + j) net = Ok c
             ∧ tr !! j = Some c
             ∧ opt_new (call_cls c) (call_pos c) (call_kwargs c) = inl o
             ∧ os !! j = Some o.
Proof.
  induction nets as [|net rest IH]; intros i tr os H0.
  - inversion H0; subst. repeat split; done.
  - cbn [per_network_loop] in H0.
    destruct (per_network_call cls kw i net) as [c|e] eqn:Ec; [|done].
    destruct (construct c) as [tr1 [o|e]] eqn:Eo; [|done].
    apply construct_ok in Eo. destruct Eo as [-> Hnew].
    destruct (per_network_loop cls kw (S i) rest) as [tr2 [os2|e]] eqn:El;
      cbn in H0; [|done].
    inversion H0; subst. clear H0.
    destruct (IH _ _ _ El) as (Hlen & Htr & Hall).
    repeat split; cbn; [by rewrite Hlen|by rewrite Htr|].
    intros [|j] net' Hj; cbn in Hj.
    + inversion Hj; subst. exists c, o. rewrite Nat.add_0_r. auto.
    + destruct (Hall j net' Hj) as (c' & o' & Hc' & Htr' & Hnew' & Hos').
      exists c', o'. rewrite <- Nat.add_succ_comm. auto.
Qed.

Lemma build_optimizer_per_network a nets names tr f :
  arg_multiagent a = true →
  build_optimizer a nets names = (tr, Ok f) →
  ∃ items os,
    py_iter nets = Ok items ∧ f = OList os
    ∧ per_network_loop (arg_optimizer_cls a) (arg_optimizer_kwargs a) 0 items
      = (tr, Ok os).
Proof.
  unfold build_optimizer, choose_topology. intros -> H0.
  destruct (py_len nets) as [n|]; [|done].
  destruct (py_iter nets) as [items|] eqn:Ei; [|done].
  destruct (per_network_loop _ _ 0 items) as [tr' [os|]] eqn:Ep; cbn in H0; [|done].
  inversion H0; subst. exists items, os. auto.
Qed.

(** C4. With the multi-agent flag set, a successful construction has
    called one optimizer class per network, in order, whatever names were
    bound: the call for index [i] is given the parameters of the network at
    [i], the class at [i] when [optimizer_cls] is a list and
    [optimizer_cls] itself otherwise, and likewise for the kwargs; the
    instance stored at [i] is what that call returned. *)
Theorem per_network_construction rt a tr w :
  arg_multiagent a = true →
  __init__ rt a = (tr, Ok w) →
  ∃ items os,
    bind_networks (rt_fresh rt) (arg_networks a) = Ok (networks w)
    ∧ py_iter (networks w) = Ok items
    ∧ optimizer w = OList os
    ∧ length os = length items
    ∧ length tr = length items
    ∧ ∀ i net, items !! i = Some net →
        ∃ k d ps o,
          match arg_optimizer_cls a with
          | ClsList cs => cs !! i = Some (ClsType k)
          | _ => arg_optimizer_cls a = ClsType k
          end
          ∧ match arg_optimizer_kwargs a with
            | KwList l => l !! i = Some (KwDict d)
            | _ => arg_optimizer_kwargs a = KwDict d
            end
          ∧ parameters net = Ok ps
          ∧ tr !! i = Some (OptCall k (PosParams ps) d)
          ∧ opt_new k (PosParams ps) d = inl o
          ∧ os !! i = Some o.
Proof.
  intros Hma Hw. apply init_ok_inv in Hw.
  destruct Hw as (nets & names & f & Hn & _ & Hb & ->).
  destruct (build_optimizer_per_network _ _ _ _ _ Hma Hb)
    as (items & os & Hit & -> & Hloop).
  destruct (per_network_loop_ok _ _ _ _ _ _ Hloop) as (Hlen & Htr & Hall).
  exists items, os. cbn. repeat split; try done.
  intros i net Hi. destruct (Hall i net Hi) as (c & o & Hc & Htri & Hnew & Hos).
  apply per_network_call_ok in Hc. destruct Hc as (k & d & ps & Hk & Hd & Hps & ->).
  exists k, d, ps, o. cbn in *.
  split; [by apply cls_at_type|]. split; [by apply kwargs_at_dict|]. auto.
Qed.

Lemma build_optimizer_single a nets names tr f n :
  py_len nets = Ok n →
  choose_topology (arg_multiagent a) n (length names) = SINGLE →
  build_optimizer a nets names = (tr, Ok f) →
  ∃ k d net ps o,
    arg_optimizer_cls a = ClsType k ∧ arg_optimizer_kwargs a = KwDict d
    ∧ py_first nets = Ok net ∧ parameters net = Ok ps
    ∧ tr = [OptCall k (PosParams ps) d]
    ∧ opt_new k (PosParams ps) d = inl o
    ∧ f = OSingle o.
Proof.
  unfold build_optimizer. intros -> -> H0.
  destruct (arg_optimizer_cls a) as [k| |]; try done.
  destruct (arg_optimizer_kwargs a) as [d| |]; try done.
  cbn in H0.
  destruct (py_first nets) as [net|] eqn:Ef; [|done]. cbn in H0.
  destruct (parameters net) as [ps|] eqn:Ep; [|done]. cbn in H0.
  destruct (opt_new k (PosParams ps) d) as [o|msg] eqn:Enew; cbn in H0; [|done].
  inversion H0; subst. exists k, d, net, ps, o. repeat split; auto.
Qed.

(** What does hold of every SINGLE-topology wrapper: one class call, over
    the parameters of the first network; the number of networks is at
    least one and otherwise free. *)
Lemma single_construction rt a tr w :
  __init__ rt a = (tr, Ok w) →
  topology_of w = Ok SINGLE →
  ∃ k d net ps o,
    py_first (networks w) = Ok net ∧ parameters net = Ok ps
    ∧ tr = [OptCall k (PosParams ps) d]
    ∧ opt_new k (PosParams ps) d = inl o
    ∧ optimizer w = OSingle o.
Proof.
  intros Hw Htop. apply init_ok_inv in Hw.
  destruct Hw as (nets & names & f & _ & _ & Hb & ->).
  unfold topology_of in Htop. cbn in Htop.
  destruct (py_len nets) as [n|] eqn:El; [|done]. cbn in Htop.
  inversion Htop as [Hc].
  destruct (build_optimizer_single _ _ _ _ _ _ El Hc Hb)
    as (k & d & net & ps & o & _ & _ & Hf & Hp & Ht & Hn & ->).
  exists k, d, net, ps, o. auto.
Qed.

End Branches.

(** ** Delegation *)

Section Delegation.
Context {OptClass KwVal Opt StateMap Tensors : Type}.
Context {OPT : Optimizer OptClass KwVal Opt StateMap Tensors}.

Implicit Types (a : @init_args OptClass KwVal) (w : @OptimizerWrapper OptClass KwVal Opt).
Implicit Types (tr : list (opt_call OptClass KwVal)) (rt : runtime).
Implicit Types (t : Tensors) (ops : list (@op StateMap)) (os : list Opt).

Lemma same_binding_refl w : same_binding w w.
Proof. by repeat split. Qed.

Lemma same_binding_trans w1 w2 w3 :
  same_binding w1 w2 → same_binding w2 w3 → same_binding w1 w3.
Proof.
  intros (A1 & A2 & A3 & A4 & A5 & A6 & A7) (B1 & B2 & B3 & B4 & B5 & B6 & B7).
  repeat split; congruence.
Qed.

Lemma for_each_length m os t : length (for_each m os t).1.1 = length os.
Proof.
  revert t. induction os as [|opt rest IH]; intros t; [done|].
  cbn [for_each]. destruct (m opt t) as [[opt' t'] [msg|]]; [done|].
  specialize (IH t'). destruct (for_each m rest t') as [[rest' t''] e].
  cbn in *. by rewrite IH.
Qed.

Lemma load_each_length os (l : list (payload StateMap)) : ∀ i,
  length (load_each os i l).1.1 = length os.
Proof.
  induction os as [|opt rest IH]; intros i; [done|].
  cbn [load_each]. destruct (l !! i) as [sd|]; [|done].
  destruct (opt_load_state_dict opt sd) as [opt' [msg|]]; [done|].
  specialize (IH (S i)). destruct (load_each rest (S i) l) as [[rest' log] e].
  cbn in *. by rewrite IH.
Qed.

Lemma delegate_same_binding m name w t :
  same_binding w (delegate m name w t).1.1.
Proof.
  unfold delegate.
  destruct (multiagent w) eqn:Ema, (optimizer w) as [o|os] eqn:Eo;
    try apply same_binding_refl.
  - pose proof (for_each_length m os t) as Hlen.
    destruct (for_each m os t) as [[os' t'] e]. cbn in Hlen.
    unfold same_binding. cbn. rewrite Eo. cbn. by repeat split.
  - destruct (m o t) as [[o' t'] e].
    unfold same_binding. cbn. rewrite Eo. by repeat split.
Qed.

Lemma load_state_dict_same_binding w (p : payload StateMap) :
  same_binding w (load_state_dict w p).1.1.
Proof.
  unfold load_state_dict. destruct (multiagent w) eqn:Ema.
  - match goal with
    | |- context [match ?m with Ok _ => _ | Raise _ => _ end] => destruct m
    end; [|apply same_binding_refl].
    destruct (optimizer w) as [o|os] eqn:Eo, p as [d|l|l|];
      try apply same_binding_refl.
    pose proof (load_each_length os l 0) as Hlen.
    destruct (load_each os 0 l) as [[os' log] e]. cbn in Hlen.
    unfold same_binding. cbn. rewrite Eo. cbn. by repeat split.
  - destruct p as [d|l|l|]; try apply same_binding_refl.
    destruct (optimizer w) as [o|os] eqn:Eo; [|apply same_binding_refl].
    destruct (opt_load_state_dict o (PDict d)) as [o' e].
    unfold same_binding. cbn. rewrite Eo. by repeat split.
Qed.

Lemma run_op_same_binding (o : op) w t : same_binding w (run_op o (w, t)).1.
Proof.
  destruct o; cbn.
  - apply (delegate_same_binding opt_step).
  - apply (delegate_same_binding opt_zero_grad).
  - apply same_binding_refl.
  - apply load_state_dict_same_binding.
Qed.

Lemma run_ops_same_binding ops : ∀ w t, same_binding w (run_ops ops (w, t)).1.
Proof.
  unfold run_ops.
  induction ops as [|o ops IH]; intros w t; [apply same_binding_refl|].
  cbn [fold_left]. pose proof (run_op_same_binding o w t) as H1.
  destruct (run_op o (w, t)) as [w1 t1]. cbn in H1.
  eapply same_binding_trans; [exact H1|apply IH].
Qed.

Lemma build_optimizer_shape a nets names tr (f : @opt_field Opt) :
  build_optimizer a nets names = (tr, Ok f) →
  is_sequence f = arg_multiagent a ∧ ∃ n, py_len nets = Ok n.
Proof.
  unfold build_optimizer, choose_topology. intros H0.
  destruct (py_len nets) as [n|]; [|done]. split; [|by exists n].
  destruct (arg_multiagent a).
  - destruct (py_iter nets) as [items|]; [|done].
    destruct (per_network_loop _ _ 0 items) as [tr' [os|]]; cbn in H0; [|done].
    by inversion H0.
  - destruct (_ && _);
      (match type of H0 with
       | match ?m with _ => _ end = _ => destruct m as [c|]
       end; [|done]);
      unfold construct in H0; destruct (opt_new _ _ _); cbn in H0;
      by inversion H0.
Qed.

(** A constructed wrapper, and the same wrapper after any later calls: its
    topology is defined, the flag is the one passed in, and the stored
    optimizer is a list exactly for PER_NETWORK. *)
Lemma reachable_shape rt a tr w0 ops t :
  __init__ rt a = (tr, Ok w0) →
  let w := (run_ops ops (w0, t)).1 in
  multiagent w = arg_multiagent a
  ∧ is_sequence (optimizer w) = arg_multiagent a
  ∧ ∃ top, topology_of w = Ok top
      ∧ match top with
        | PER_NETWORK => multiagent w = true ∧ ∃ os, optimizer w = OList os
        | POOLED | SINGLE => multiagent w = false ∧ ∃ o, optimizer w = OSingle o
        end.
Proof.
  intros Hw w. apply init_ok_inv in Hw.
  destruct Hw as (nets & names & f & _ & _ & Hb & ->).
  destruct (build_optimizer_shape _ _ _ _ _ Hb) as [Hseq [n Hlen]].
  destruct (run_ops_same_binding ops
              (Wrapper (arg_optimizer_cls a) (arg_optimizer_kwargs a)
                 (arg_multiagent a) nets names f) t)
    as (_ & _ & Hma & Hnets & Hnames & Hshape & _).
  fold w in Hma, Hnets, Hnames, Hshape. cbn in Hma, Hnets, Hnames, Hshape.
  split; [done|]. split; [congruence|].
  unfold topology_of. rewrite Hnets, Hnames, Hma, Hlen. cbn.
  eexists. split; [reflexivity|].
  rewrite Hseq in Hshape. unfold choose_topology.
  destruct (arg_multiagent a), (optimizer w) as [o|os]; try done.
  - split; [done|]. by exists os.
  - destruct (_ && _); (split; [done|]; by exists o).
Qed.

(** C10. After a successful construction the stored optimizer is a list
    exactly when the multi-agent flag was passed, and this still holds
    after any sequence of [step], [zero_grad], [state_dict] and
    [load_state_dict] calls, none of which changes the flag. *)
Theorem optimizer_shape_follows_flag rt a tr w0 ops t :
  __init__ rt a = (tr, Ok w0) →
  let w := (run_ops ops (w0, t)).1 in
  multiagent w = arg_multiagent a
  ∧ is_sequence (optimizer w) = arg_multiagent a.
Proof.
  intros Hw w.
  destruct (reachable_shape rt a tr w0 ops t Hw) as (Hma & Hseq & _).
  by split.
Qed.

(** C7. [state_dict] of a PER_NETWORK wrapper is the list of the stored
    instances' serialized states, in the order of the instances; for
    SINGLE and POOLED it is the one stored instance's serialized state
    itself. *)
Theorem state_dict_by_topology rt a tr w0 ops t :
  __init__ rt a = (tr, Ok w0) →
  let w := (run_ops ops (w0, t)).1 in
  ∃ top, topology_of w = Ok top
    ∧ match top with
      | PER_NETWORK =>
          ∃ os, optimizer w = OList os
            ∧ state_dict w = Ok (PList (map (λ o, PDict (opt_state_dict o)) os))
            ∧ ∀ i o, os !! i = Some o →
                ∃ l, state_dict w = Ok (PList l)
                     ∧ l !! i = Some (PDict (opt_state_dict o))
      | POOLED | SINGLE =>
          ∃ o, optimizer w = OSingle o
            ∧ state_dict w = Ok (PDict (opt_state_dict o))
      end.
Proof.
  intros Hw w.
  destruct (reachable_shape rt a tr w0 ops t Hw) as (_ & _ & top & Htop & Hshape).
  fold w in Htop, Hshape. exists top. split; [done|].
  unfold state_dict, __iter__.
  destruct top; destruct Hshape as [-> [x ->]]; exists x; cbn.
  - repeat split; try done. intros i o Hi. eexists. split; [reflexivity|].
    by rewrite list_lookup_fmap, Hi.
  - done.
  - done.
Qed.

Lemma list_getitem_nat {A : Type} (l : list A) (i : nat) (x : A) :
  l !! i = Some x → list_getitem l (Z.of_nat i) = Ok x.
Proof.
  intros Hi. pose proof (lookup_lt_Some _ _ _ Hi) as Hlt.
  unfold list_getitem.
  destruct (Z.ltb_spec (Z.of_nat i) 0) as [Hneg|_]; [lia|].
  destruct (Z.leb_spec 0 (Z.of_nat i)) as [_|Hneg]; [|lia].
  destruct (Z.ltb_spec (Z.of_nat i) (Z.of_nat (length l))) as [_|Hge]; [|lia].
  cbn. by rewrite Nat2Z.id, Hi.
Qed.

(** C8. Indexing a PER_NETWORK wrapper returns the stored instance at
    that position; indexing a SINGLE or POOLED wrapper raises a
    [TypeError] whose text names the type of the single stored optimizer. *)
Theorem getitem_by_topology rt a tr w0 ops t :
  __init__ rt a = (tr, Ok w0) →
  let w := (run_ops ops (w0, t)).1 in
  ∃ top, topology_of w = Ok top
    ∧ match top with
      | PER_NETWORK =>
          ∃ os, optimizer w = OList os
            ∧ ∀ (i : nat) o, os !! i = Some o → __getitem__ w (Z.of_nat i) = Ok o
      | POOLED | SINGLE =>
          ∃ o, optimizer w = OSingle o
            ∧ ∀ index,
                __getitem__ w index
                = Raise (TypeError ("Can't access item of a single "
                                    ++ class_repr (opt_type o) ++ " object."))
      end.
Proof.
  intros Hw w.
  destruct (reachable_shape rt a tr w0 ops t Hw) as (_ & _ & top & Htop & Hshape).
  fold w in Htop, Hshape. exists top. split; [done|].
  unfold __getitem__.
  destruct top; destruct Hshape as [_ [x ->]]; exists x; (split; [done|]); cbn.
  - intros i o Hi. by rewrite (list_getitem_nat _ _ _ Hi).
  - done.
  - done.
Qed.

(** C5. On a multi-agent wrapper, a payload that is not a list of as many
    entries as there are stored instances makes [load_state_dict] raise
    its assertion; the wrapper, with every instance in it, is as before,
    and no instance was handed anything. *)
Theorem load_state_dict_rejects_bad_length rt a tr w0 ops t (p : payload StateMap) :
  __init__ rt a = (tr, Ok w0) →
  arg_multiagent a = true →
  let w := (run_ops ops (w0, t)).1 in
  (∀ l, p = PList l → length l ≠ length (instances (optimizer w))) →
  load_state_dict w p
  = (w, [],
     Some (AssertionError
             (Some "Expected a list of optimizer state dictionaries for multi-agent optimizers."))).
Proof.
  intros Hw Hflag w Hbad.
  destruct (reachable_shape rt a tr w0 ops t Hw) as (Hma & Hseq & _).
  fold w in Hma, Hseq. rewrite Hflag in Hma, Hseq.
  unfold load_state_dict. rewrite Hma.
  destruct (optimizer w) as [o|os] eqn:Eo; [done|].
  destruct p as [d|l|l|]; try done.
  cbn. specialize (Hbad l eq_refl). cbn in Hbad.
  apply Nat.eqb_neq in Hbad. by rewrite Hbad.
Qed.

Lemma load_each_round_trip (os1 : list Opt) : ∀ os2 i,
  length os2 + i = length os1 →
  (∀ j o1 o2, os1 !! (i + j) = Some o1 → os2 !! j = Some o2 → round_trips o1 o2) →
  ∃ os2' log,
    load_each os2 i (map (λ o, PDict (opt_state_dict o)) os1) = (os2', log, None)
    ∧ map opt_state_dict os2' = map opt_state_dict (drop i os1).
Proof.
  induction os2 as [|o2 rest IH]; intros i Hlen Hrt.
  - exists [], []. split; [done|]. rewrite drop_ge; [done|]. cbn in Hlen. lia.
  - cbn in Hlen.
    destruct (lookup_lt_is_Some_2 os1 i) as [o1 Ho1]; [lia|].
    destruct (Hrt 0 o1 o2) as [Hnone Hsd]; [by rewrite Nat.add_0_r|done|].
    destruct (IH (S i)) as (os2' & log & Hload & Hmap); [lia| |].
    { intros j x1 x2 Hx1 Hx2. apply (Hrt (S j) x1 x2); [|done].
      by rewrite <- Nat.add_succ_comm. }
    cbn [load_each]. rewrite list_lookup_fmap, Ho1. cbn.
    destruct (opt_load_state_dict o2 (PDict (opt_state_dict o1))) as [o2' e].
    cbn in Hnone, Hsd. subst e. rewrite Hload.
    exists (o2' :: os2'), (PDict (opt_state_dict o1) :: log). split; [done|].
    rewrite (drop_S _ _ _ Ho1). cbn. by rewrite Hsd, Hmap.
Qed.

Lemma per_network_instances rt a tr w0 ops t :
  __init__ rt a = (tr, Ok w0) →
  arg_multiagent a = true →
  let w := (run_ops ops (w0, t)).1 in
  ∃ items, py_iter (networks w) = Ok items
    ∧ length (instances (optimizer w)) = length items.
Proof.
  intros Hw Hma w. apply init_ok_inv in Hw.
  destruct Hw as (nets & names & f & _ & _ & Hb & ->).
  destruct (build_optimizer_per_network _ _ _ _ _ Hma Hb)
    as (items & os & Hit & -> & Hloop).
  destruct (per_network_loop_ok _ _ _ _ _ _ Hloop) as (Hlen & _).
  destruct (run_ops_same_binding ops
              (Wrapper (arg_optimizer_cls a) (arg_optimizer_kwargs a)
                 (arg_multiagent a) nets names (OList os)) t)
    as (_ & _ & _ & Hnets & _ & _ & Hinst).
  fold w in Hnets, Hinst. cbn in Hnets, Hinst.
  exists items. rewrite Hnets, Hinst. auto.
Qed.

(** C6. Two wrappers constructed with the same topology over the same
    modules, each after any calls of its own: if every instance of the
    second accepts the serialized state of the instance at the same
    position of the first and then serializes to it, then loading the
    first wrapper's [state_dict] into the second raises nothing and leaves
    the second with that same [state_dict]. *)
Theorem state_dict_round_trip
    rt1 a1 tr1 u1 ops1 t1 rt2 a2 tr2 u2 ops2 t2 :
  __init__ rt1 a1 = (tr1, Ok u1) →
  __init__ rt2 a2 = (tr2, Ok u2) →
  let w1 := (run_ops ops1 (u1, t1)).1 in
  let w2 := (run_ops ops2 (u2, t2)).1 in
  topology_of w1 = topology_of w2 →
  py_iter (networks w1) = py_iter (networks w2) →
  (∀ i o1 o2,
     instances (optimizer w1) !! i = Some o1 →
     instances (optimizer w2) !! i = Some o2 →
     round_trips o1 o2) →
  ∃ p, state_dict w1 = Ok p
    ∧ (load_state_dict w2 p).2 = None
    ∧ state_dict (load_state_dict w2 p).1.1 = Ok p.
Proof.
  intros Hu1 Hu2 w1 w2 Htop Hnets Hrt.
  destruct (reachable_shape rt1 a1 tr1 u1 ops1 t1 Hu1)
    as (Hma1 & _ & top1 & Htop1 & Hshape1).
  destruct (reachable_shape rt2 a2 tr2 u2 ops2 t2 Hu2)
    as (Hma2 & _ & top2 & Htop2 & Hshape2).
  fold w1 in Hma1, Htop1, Hshape1. fold w2 in Hma2, Htop2, Hshape2.
  rewrite Htop1, Htop2 in Htop. inversion Htop; subst top2. clear Htop.
  assert (Hsingle :
    multiagent w1 = false → multiagent w2 = false →
    (∃ o, optimizer w1 = OSingle o) → (∃ o, optimizer w2 = OSingle o) →
    ∃ p, state_dict w1 = Ok p
      ∧ (load_state_dict w2 p).2 = None
      ∧ state_dict (load_state_dict w2 p).1.1 = Ok p).
  { intros M1 M2 [o1 E1] [o2 E2].
    exists (PDict (opt_state_dict o1)).
    destruct (Hrt 0 o1 o2) as [Hnone Hsd]; [by rewrite E1|by rewrite E2|].
    unfold state_dict, load_state_dict. rewrite M1, M2, E1, E2.
    destruct (opt_load_state_dict o2 (PDict (opt_state_dict o1))) as [o2' e].
    cbn in Hnone, Hsd. subst e. cbn. rewrite M2. by rewrite Hsd. }
  destruct top1.
  - destruct Hshape1 as [M1 [os1 E1]], Hshape2 as [M2 [os2 E2]].
    destruct (per_network_instances rt1 a1 tr1 u1 ops1 t1 Hu1)
      as (items1 & Hit1 & Hlen1); [congruence|].
    destruct (per_network_instances rt2 a2 tr2 u2 ops2 t2 Hu2)
      as (items2 & Hit2 & Hlen2); [congruence|].
    fold w1 in Hit1, Hlen1. fold w2 in Hit2, Hlen2.
    rewrite Hit1, Hit2 in Hnets. inversion Hnets; subst items2.
    rewrite E1 in Hlen1, Hrt. rewrite E2 in Hlen2, Hrt. cbn in Hlen1, Hlen2, Hrt.
    destruct (load_each_round_trip os1 os2 0) as (os2' & log & Hload & Hmap);
      [lia|done|].
    rewrite drop_0 in Hmap.
    exists (PList (map (λ o, PDict (opt_state_dict o)) os1)).
    unfold state_dict, load_state_dict, __iter__. rewrite M1, M2, E1, E2. cbn.
    rewrite length_map, Hlen1, <- Hlen2, Nat.eqb_refl. cbn.
    rewrite Hload. cbn. rewrite M2. cbn.
    repeat split; try done.
    do 2 f_equal. rewrite <- (map_map opt_state_dict PDict os2').
    rewrite <- (map_map opt_state_dict PDict os1). by rewrite Hmap.
  - destruct Hshape1 as [M1 X1], Hshape2 as [M2 X2]. by apply Hsingle.
  - destruct Hshape1 as [M1 X1], Hshape2 as [M2 X2]. by apply Hsingle.
Qed.

End Delegation.

(** ** Closed examples over the reference optimizer *)

(** [module_B] is not a field of the owner of [module_A]: no wrapper. *)
Lemma construction_requires_names_witness :
  __init__ (in_owner owner_of_A) args_unowned
  = ([], Raise (AssertionError (Some "No networks found in the parent container."))).
Proof.
  exact (proj1 (construction_requires_names (OPT:=ref_optimizer) (in_owner owner_of_A) args_unowned
                  (PyList 100 [module_B]) owner_of_A
                  eq_refl eq_refl eq_refl eq_refl)).
Defined.

(** A tuple of modules passes the guard and is stored as the tuple. *)
Lemma networks_guard_is_vacuous_witness :
  single_network_or_list (arg_networks args_tuple) = false
  ∧ ∃ tr w, __init__ (in_owner owner_of_A) args_tuple = (tr, Ok w)
            ∧ networks w = PyTuple 9 [module_A].
Proof.
  split; [reflexivity|]. eexists _, _. split; [reflexivity|].
  pose proof (networks_guard_is_vacuous (OPT:=ref_optimizer) (in_owner owner_of_A) args_tuple eq_refl)
    as (_ & _ & _ & Hkeep).
  exact (Hkeep _ _ eq_refl).
Defined.

(** Two networks, two classes, two kwargs, one name: two instances. *)
Lemma per_network_construction_witness :
  ∃ tr w, __init__ (in_owner owner_of_A) args_multi = (tr, Ok w)
          ∧ length (network_names w) = 1
          ∧ ∃ os, optimizer w = OList os ∧ length os = 2 ∧ length tr = 2.
Proof.
  eexists _, _. split; [reflexivity|]. split; [reflexivity|].
  destruct (per_network_construction (OPT:=ref_optimizer) (in_owner owner_of_A) args_multi _ _
              eq_refl eq_refl)
    as (items & os & _ & Hit & Hos & Hlen & Htr & _).
  inversion Hit; subst items. exists os. auto.
Defined.

Lemma optimizer_shape_follows_flag_witness :
  let w := (run_ops [OpStep; OpZeroGrad; OpLoadStateDict (PDict 4); OpStateDict]
              (Wrapper (ClsType Adam) (lr 1) false (PyList 100 [module_A])
                 ["actor"] (OSingle (RefOpt Adam (PosParams [10; 11]) [("lr", 1%Z)] 0)),
               0)).1 in
  multiagent w = false ∧ is_sequence (optimizer w) = false.
Proof.
  exact (optimizer_shape_follows_flag (OPT:=ref_optimizer) (in_owner owner_of_A) args_single _ _
           [OpStep; OpZeroGrad; OpLoadStateDict (PDict 4); OpStateDict] 0 eq_refl).
Defined.

Lemma state_dict_by_topology_witness :
  ∃ tr w0, __init__ (in_owner owner_of_A) args_multi = (tr, Ok w0)
    ∧ state_dict (run_ops [OpStep; OpStep] (w0, 0)).1 = Ok (PList [PDict 2; PDict 2]).
Proof.
  eexists _, _. split; [reflexivity|].
  destruct (state_dict_by_topology (OPT:=ref_optimizer) (in_owner owner_of_A) args_multi _ _
              [OpStep; OpStep] 0 eq_refl)
    as (top & Htop & Hsd).
  inversion Htop; subst top. destruct Hsd as (os & Hos & Hsd & _).
  inversion Hos; subst os. exact Hsd.
Defined.

Lemma getitem_by_topology_witness :
  ∃ tr w0, __init__ (in_owner owner_of_A) args_pooled = (tr, Ok w0)
    ∧ __getitem__ (run_ops [OpStep] (w0, 0)).1 1
      = Raise (TypeError
                 "Can't access item of a single <class 'torch.optim.sgd.SGD'> object.").
Proof.
  eexists _, _. split; [reflexivity|].
  destruct (getitem_by_topology (OPT:=ref_optimizer) (in_owner owner_of_A) args_pooled _ _
              [OpStep] 0 eq_refl)
    as (top & Htop & Hget).
  inversion Htop; subst top. destruct Hget as (o & Ho & Hget).
  inversion Ho; subst o. exact (Hget 1%Z).
Defined.

Lemma load_state_dict_rejects_bad_length_witness :
  ∃ tr w0, __init__ (in_owner owner_of_A) args_multi = (tr, Ok w0)
    ∧ (load_state_dict (run_ops [OpStep] (w0, 0)).1 (PList [PDict 7])).1
      = ((run_ops [OpStep] (w0, 0)).1, []).
Proof.
  eexists _, _. split; [reflexivity|].
  rewrite (load_state_dict_rejects_bad_length (OPT:=ref_optimizer) (in_owner owner_of_A) args_multi
             _ _ [OpStep] 0 (PList [PDict 7]) eq_refl eq_refl).
  - reflexivity.
  - intros l Hl. inversion Hl; subst l. cbn. lia.
Defined.

Lemma state_dict_round_trip_witness :
  ∃ tr1 u1 tr2 u2,
    __init__ (in_owner owner_of_A) args_multi = (tr1, Ok u1)
    ∧ __init__ (in_owner owner_of_A) args_multi_shared = (tr2, Ok u2)
    ∧ let w1 := (run_ops [OpStep; OpStep] (u1, 0)).1 in
      let w2 := (run_ops [OpStep] (u2, 0)).1 in
      ∃ p, state_dict w1 = Ok p
        ∧ (load_state_dict w2 p).2 = None
        ∧ state_dict (load_state_dict w2 p).1.1 = Ok p.
Proof.
  eexists _, _, _, _. split; [reflexivity|]. split; [reflexivity|].
  apply (state_dict_round_trip (OPT:=ref_optimizer)
           (in_owner owner_of_A) args_multi _ _ [OpStep; OpStep] 0
           (in_owner owner_of_A) args_multi_shared _ _ [OpStep] 0
           eq_refl eq_refl eq_refl eq_refl).
  intros [|[|i]] o1 o2 H1 H2; inversion H1; inversion H2; subst;
    split; reflexivity.
Defined.

(** C1. A single-agent construction over two networks bound under one
    name takes the SINGLE branch: the wrapper keeps both networks, and its
    one optimizer is built over the parameters of the first only. *)
Theorem single_topology_with_two_networks :
  ∃ w, __init__ (in_owner owner_of_A) args_two_networks_one_name
       = ([OptCall Adam (PosParams [10; 11]) [("lr", 1%Z)]], Ok w)
    ∧ topology_of w = Ok SINGLE
    ∧ py_len (networks w) = Ok 2
    ∧ optimizer w = OSingle (RefOpt Adam (PosParams [10; 11]) [("lr", 1%Z)] 0).
Proof. eexists. repeat split; reflexivity. Qed.

(** * Further properties of the code *)

(** ** Name resolution at construction *)

(** The resolver invents and reorders nothing: what it returns is the
    container's field names with some left out. *)
Theorem inferred_names_sublist (ma : bool) (nets : pyobj) (c : container)
    (ns : list string) :
  _infer_network_attr_names ma nets c = Ok ns →
  ns `sublist_of` c.*1 ∧ (length ns ≤ length c)%nat.
Proof.
  revert ns. induction c as [|[n v] c IH]; intros ns H0.
  - inversion H0; subst. split; [constructor|done].
  - cbn [_infer_network_attr_names] in H0.
    destruct (_match_condition ma nets v) as [b|] eqn:Eb; [|done]. cbn in H0.
    destruct (_infer_network_attr_names ma nets c) as [names|]; [|done].
    cbn in H0. inversion H0; subst. clear H0.
    destruct (IH names eq_refl) as [Hsub Hlen].
    destruct b; cbn; split; try lia.
    + by apply sublist_skip.
    + by apply sublist_cons.
Qed.

Lemma inferred_names_sublist_witness :
  ["actor"] `sublist_of` ["gamma"; "actor"] ∧ (1 ≤ 2)%nat.
Proof.
  exact (inferred_names_sublist false (PyList 100 [module_A]) owner_of_A
           ["actor"] eq_refl).
Defined.

Section Resolution.
Context {OptClass KwVal Opt StateMap Tensors : Type}.
Context {OPT : Optimizer OptClass KwVal Opt StateMap Tensors}.

Implicit Types (a : @init_args OptClass KwVal) (w : @OptimizerWrapper OptClass KwVal Opt).
Implicit Types (tr : list (opt_call OptClass KwVal)) (rt : runtime).

(** With [network_names] passed in, the constructor never looks at the
    call stack: any two stacks give the same outcome, and a constructed
    wrapper carries the names as passed. *)
Theorem explicit_names_skip_the_stack a (ns : list string)
    (callers callers' : list frame) (fresh : ref) :
  arg_network_names a = Some ns →
  __init__ (Runtime callers fresh) a = __init__ (Runtime callers' fresh) a
  ∧ ∀ tr w, __init__ (Runtime callers fresh) a = (tr, Ok w) → network_names w = ns.
Proof.
  intros Hns. split.
  - unfold __init__, bind_network_names. by rewrite Hns.
  - intros tr w Hw. apply init_ok_inv in Hw.
    destruct Hw as (nets & names & f & _ & Hnames & _ & ->). cbn.
    unfold bind_network_names in Hnames. rewrite Hns in Hnames. cbn in Hnames.
    destruct (py_assert _ _); [|done]. cbn in Hnames. by inversion Hnames.
Qed.

(** Without names, only the frame that called the constructor is read, and
    only its [self]: frames further out do not matter, and a caller with no
    [self] makes construction raise [KeyError] before any class is called. *)
Theorem inference_reads_the_caller_frame a (caller : frame)
    (outer outer' : list frame) (fresh : ref) :
  arg_network_names a = None →
  __init__ (Runtime (caller :: outer) fresh) a
  = __init__ (Runtime (caller :: outer') fresh) a
  ∧ (assoc "self" caller = None →
     __init__ (Runtime (caller :: outer) fresh) a = ([], Raise (KeyError "self"))).
Proof.
  intros Hnone. split.
  - unfold __init__, bind_network_names. by rewrite Hnone.
  - intros Hself. unfold __init__, bind_network_names.
    rewrite bind_networks_ok, Hnone. cbn. by rewrite Hself.
Qed.

(** A bare module passed with the multi-agent flag and no names can never
    be resolved: the list the constructor wraps it in is new, so no field
    of the owner holds it, and construction raises before any class call. *)
Theorem multiagent_bare_module_never_resolves rt a (c : container) :
  arg_multiagent a = true →
  arg_network_names a = None →
  isinstance_Module (arg_networks a) = true →
  _infer_parent_container (rt_callers rt) = Ok c →
  (∀ n v, (n, v) ∈ c → py_id v ≠ rt_fresh rt) →
  __init__ rt a
  = ([], Raise (AssertionError (Some "No networks found in the parent container."))).
Proof.
  intros Hma Hnone Hmod Hc Hfresh.
  unfold __init__, bind_network_names.
  rewrite bind_networks_ok, Hmod, Hnone, Hma. cbn [mbind result_bind].
  rewrite Hc. cbn [mbind result_bind]. rewrite infer_names_multi_agent.
  replace (fields_identical_to (PyList (rt_fresh rt) [arg_networks a]) c)
    with (@nil string); [done|].
  symmetry.
  destruct (fields_identical_to _ c) as [|n l] eqn:E; [done|].
  assert (Hn : n ∈ fields_identical_to (PyList (rt_fresh rt) [arg_networks a]) c)
    by (rewrite E; left).
  apply elem_of_fields_identical_to in Hn. destruct Hn as (v & Hin & Hid).
  by destruct (Hfresh n v Hin).
Qed.

(** A bare module passed without the flag and without names: the wrapper
    holds it in a one-element list, and its names are exactly the owner's
    fields that hold that module. *)
Theorem single_agent_module_names rt a (c : container) tr w :
  arg_multiagent a = false →
  arg_network_names a = None →
  isinstance_Module (arg_networks a) = true →
  _infer_parent_container (rt_callers rt) = Ok c →
  __init__ rt a = (tr, Ok w) →
  networks w = PyList (rt_fresh rt) [arg_networks a]
  ∧ network_names w = fields_identical_to (arg_networks a) c.
Proof.
  intros Hma Hnone Hmod Hc Hw. apply init_ok_inv in Hw.
  destruct Hw as (nets & names & f & Hn & Hnames & _ & ->). cbn.
  rewrite bind_networks_ok, Hmod in Hn. inversion Hn; subst nets. clear Hn.
  split; [done|].
  unfold bind_network_names in Hnames. rewrite Hnone, Hma, Hc in Hnames.
  cbn [mbind result_bind] in Hnames.
  rewrite (infer_names_single_agent c (PyList (rt_fresh rt) [arg_networks a])
             [arg_networks a] eq_refl) in Hnames.
  cbn [mbind result_bind] in Hnames.
  destruct (py_assert _ _); [|done]. cbn in Hnames. inversion Hnames; subst.
  unfold fields_identical_to_any, fields_identical_to. f_equal.
  apply List.filter_ext. intros [n v]. cbn. by rewrite orb_false_r.
Qed.

End Resolution.

(** ** Parameter groups *)

Lemma assoc_app_last {A : Type} (k : string) (l : list (string * A)) (k' : string) (v : A) :
  assoc k (l ++ [(k', v)])%list
  = match assoc k l with
    | Some x => Some x
    | None => if String.eqb k k' then Some v else None
    end.
Proof.
  induction l as [|[k0 v0] l IH]; cbn; [done|].
  destruct (String.eqb k k0); [done|apply IH].
Qed.

Lemma assoc_dict_set {V : Type} (k k' : string) (v : V) (d : list (string * V)) :
  assoc k' (dict_set k v d) = if String.eqb k' k then Some v else assoc k' d.
Proof.
  induction d as [|[k0 v0] d IH]; cbn.
  - by destruct (String.eqb k' k).
  - destruct (String.eqb k k0) eqn:E0; cbn.
    + apply String.eqb_eq in E0. subst k0. by destruct (String.eqb k' k).
    + rewrite IH. destruct (String.eqb k' k0) eqn:E1; [|done].
      apply String.eqb_eq in E1. subst k0.
      by rewrite String.eqb_sym, E0.
Qed.

Lemma dict_set_keys {V : Type} (k : string) (v : V) (d : list (string * V)) :
  (dict_set k v d).*1 = if decide (k ∈ d.*1) then d.*1 else (d.*1 ++ [k])%list.
Proof.
  induction d as [|[k0 v0] d IH]; cbn.
  - destruct (decide (k ∈ [])) as [Hin|_]; [by inversion Hin|done].
  - destruct (String.eqb_spec k k0) as [->|Hne]; cbn.
    + destruct (decide (k0 ∈ k0 :: d.*1)) as [_|Hn]; [done|].
      exfalso. apply Hn. left.
    + rewrite IH. destruct (decide (k ∈ d.*1)) as [Hin|Hnin].
      * destruct (decide (k ∈ k0 :: d.*1)) as [_|Hn]; [done|].
        exfalso. apply Hn. by right.
      * destruct (decide (k ∈ k0 :: d.*1)) as [Hin|_]; [|done].
        inversion Hin; subst; done.
Qed.

Lemma dict_set_NoDup {V : Type} (k : string) (v : V) (d : list (string * V)) :
  NoDup d.*1 → NoDup (dict_set k v d).*1.
Proof.
  intros Hd. rewrite dict_set_keys. destruct (decide (k ∈ d.*1)); [done|].
  apply NoDup_app. repeat split; [done| |apply NoDup_singleton].
  intros x Hx Hk. apply list_elem_of_singleton in Hk. by subst.
Qed.

Lemma dict_set_head {V : Type} (k : string) (v : V) (d : list (string * V)) (k0 : string) :
  head d.*1 = Some k0 → head (dict_set k v d).*1 = Some k0.
Proof.
  destruct d as [|[k1 v1] d]; cbn; [done|]. intros H0.
  by destruct (String.eqb_spec k k1) as [->|_].
Qed.

Section Groups.
Context {KwVal : Type}.

Implicit Types (kw : kwargs KwVal) (d : group KwVal).

Lemma fold_dict_set_lookup kw : ∀ d (k : string),
  assoc k (fold_left (λ d kv, dict_set kv.1 (GVal kv.2) d) kw d)
  = match assoc k (reverse kw) with
    | Some v => Some (GVal v)
    | None => assoc k d
    end.
Proof.
  induction kw as [|[k0 v0] kw IH]; intros d k; [done|].
  cbn [fold_left]. rewrite IH. rewrite reverse_cons, assoc_app_last.
  destruct (assoc k (reverse kw)); [done|].
  cbn. rewrite assoc_dict_set. by destruct (String.eqb k k0).
Qed.

Lemma fold_dict_set_shape kw : ∀ d (k0 : string),
  NoDup d.*1 → head d.*1 = Some k0 →
  let g := fold_left (λ d kv, dict_set kv.1 (GVal kv.2) d) kw d in
  NoDup g.*1 ∧ head g.*1 = Some k0.
Proof.
  induction kw as [|[k v] kw IH]; intros d k0 Hd Hh; [done|].
  cbn [fold_left]. apply IH; [by apply dict_set_NoDup|by apply dict_set_head].
Qed.

(** The dict built by the pooled branch for one network: its keys are
    distinct with [params] first; a key of the kwargs has the kwargs' last
    value for it, [params] included, so kwargs that carry a [params] entry
    replace the network's parameters; otherwise [params] is the network's
    parameters and no other key is present. *)
Theorem param_group_lookup (ps : list param) kw (k : string) :
  assoc k (param_group ps kw)
  = match assoc k (reverse kw) with
    | Some v => Some (GVal v)
    | None => if String.eqb k "params" then Some (GParams ps) else None
    end
  ∧ NoDup (param_group ps kw).*1
  ∧ head (param_group ps kw).*1 = Some "params".
Proof.
  unfold param_group. split.
  - rewrite fold_dict_set_lookup. destruct (assoc k (reverse kw)); [done|].
    cbn. by destruct (String.eqb k "params").
  - apply fold_dict_set_shape; [|done]. cbn. apply NoDup_singleton.
Qed.

End Groups.

(** ** The pooled and single branches, and what stops a construction *)

Section Policy.
Context {OptClass KwVal Opt StateMap Tensors : Type}.
Context {OPT : Optimizer OptClass KwVal Opt StateMap Tensors}.

Implicit Types (a : @init_args OptClass KwVal) (w : @OptimizerWrapper OptClass KwVal Opt).
Implicit Types (tr : list (opt_call OptClass KwVal)) (rt : runtime).
Implicit Types (cls : cls_arg OptClass) (kw : kwargs_arg KwVal).

Lemma py_len_iter (o : pyobj) (n : nat) :
  py_len o = Ok n → ∃ items, py_iter o = Ok items ∧ length items = n.
Proof.
  destruct o as [r ps|r xs|r xs|r]; cbn; intros H0; inversion H0; subst;
    by exists xs.
Qed.

Lemma pooled_groups_ok kw (nets : list pyobj) : ∀ i (gs : list (group KwVal)),
  pooled_groups kw i nets = Ok gs →
  length gs = length nets
  ∧ ∀ j net, nets !! j = Some net →
      ∃ d ps, kwargs_at kw (i + j) = Ok (KwDict d)
              ∧ parameters net = Ok ps
              ∧ gs !! j = Some (param_group ps d).
Proof.
  induction nets as [|net rest IH]; intros i gs H0.
  - inversion H0; subst. split; [done|]. intros j net Hj. done.
  - cbn [pooled_groups] in H0.
    destruct (kwargs_at kw i) as [k|] eqn:Ek; [|done]. cbn in H0.
    destruct (parameters net) as [ps|] eqn:Ep; [|done]. cbn in H0.
    destruct k as [d| |]; try done. cbn in H0.
    destruct (pooled_groups kw (S i) rest) as [gs'|] eqn:Eg; [|done].
    cbn in H0. inversion H0; subst. clear H0.
    destruct (IH _ _ Eg) as [Hlen Hall]. split; [cbn; by rewrite Hlen|].
    intros [|j] net' Hj; cbn in Hj.
    + inversion Hj; subst. exists d, ps. rewrite Nat.add_0_r. auto.
    + destruct (Hall j net' Hj) as (d' & ps' & Hd & Hp & Hg).
      exists d', ps'. rewrite <- Nat.add_succ_comm. auto.
Qed.

Lemma build_optimizer_pooled a nets names tr (f : @opt_field Opt) n :
  py_len nets = Ok n →
  choose_topology (arg_multiagent a) n (length names) = POOLED →
  build_optimizer a nets names = (tr, Ok f) →
  ∃ k items gs o,
    arg_optimizer_cls a = ClsType k
    ∧ n = length names
    ∧ py_iter nets = Ok items
    ∧ pooled_groups (arg_optimizer_kwargs a) 0 items = Ok gs
    ∧ tr = [OptCall k (PosGroups gs) []]
    ∧ opt_new k (PosGroups gs) [] = inl o
    ∧ f = OSingle o.
Proof.
  unfold build_optimizer. intros -> -> H0.
  destruct (Nat.eqb_spec n (length names)) as [Hn|]; [|done]. cbn in H0.
  destruct (arg_optimizer_cls a) as [k| |]; try done. cbn in H0.
  destruct (py_iter nets) as [items|] eqn:Ei; [|done]. cbn in H0.
  destruct (pooled_groups _ 0 items) as [gs|] eqn:Eg; [|done]. cbn in H0.
  destruct (opt_new k (PosGroups gs) []) as [o|msg] eqn:Enew; cbn in H0; [|done].
  inversion H0; subst. exists k, items, gs, o. repeat split; auto.
Qed.

(** A POOLED wrapper was built by one call of the one class, without
    keyword arguments, on a list of parameter groups: one group per
    network, in order, made of that network's parameters and the kwargs
    selected for its index. It has as many networks as names. *)
Theorem pooled_construction rt a tr w :
  __init__ rt a = (tr, Ok w) →
  topology_of w = Ok POOLED →
  ∃ k items gs o,
    arg_optimizer_cls a = ClsType k
    ∧ py_iter (networks w) = Ok items
    ∧ length items = length (network_names w)
    ∧ length gs = length items
    ∧ tr = [OptCall k (PosGroups gs) []]
    ∧ opt_new k (PosGroups gs) [] = inl o
    ∧ optimizer w = OSingle o
    ∧ ∀ i net, items !! i = Some net →
        ∃ d ps,
          match arg_optimizer_kwargs a with
          | KwList l => l !! i = Some (KwDict d)
          | _ => arg_optimizer_kwargs a = KwDict d
          end
          ∧ parameters net = Ok ps
          ∧ gs !! i = Some (param_group ps d).
Proof.
  intros Hw Htop. apply init_ok_inv in Hw.
  destruct Hw as (nets & names & f & _ & _ & Hb & ->).
  unfold topology_of in Htop. cbn in Htop.
  destruct (py_len nets) as [n|] eqn:El; [|done]. cbn in Htop.
  inversion Htop as [Hc].
  destruct (build_optimizer_pooled _ _ _ _ _ _ El Hc Hb)
    as (k & items & gs & o & Hk & Hn & Hit & Hg & Ht & Hnew & ->).
  destruct (py_len_iter _ _ El) as (items' & Hit' & Hlen').
  rewrite Hit in Hit'. inversion Hit'; subst items'.
  destruct (pooled_groups_ok _ _ _ _ Hg) as [Hglen Hall].
  exists k, items, gs, o. cbn. repeat split; try done; try congruence.
  intros i net Hi. destruct (Hall i net Hi) as (d & ps & Hd & Hp & Hgi).
  exists d, ps. cbn in Hd. split; [by apply kwargs_at_dict|]. auto.
Qed.

(** In single-agent mode the class is called at most once, and last: when
    construction raises anything that does not come out of the optimizer
    class itself, no class has been called. *)
Theorem single_agent_fails_before_any_call rt a tr (r : result (@OptimizerWrapper OptClass KwVal Opt)) :
  arg_multiagent a = false →
  __init__ rt a = (tr, r) →
  (length tr ≤ 1)%nat
  ∧ ∀ e, r = Raise e → (∀ msg, e ≠ OptimizerRaised msg) → tr = [].
Proof.
  intros Hma. unfold __init__.
  destruct (_ ≫= _) as [[nets names]|e0]; [|intros H0; inversion H0; subst; split;
    [cbn; lia|done]].
  unfold build_optimizer, choose_topology. rewrite Hma.
  destruct (py_len nets) as [n|e0];
    [|cbn; intros H0; inversion H0; subst; split; [cbn; lia|done]].
  destruct (_ && _);
    (match goal with
     | |- context [match ?m with Ok _ => _ | Raise _ => _ end] =>
         destruct m as [c|e0]
     end;
     [unfold construct; destruct (opt_new _ _ _) as [o|msg]; cbn;
      intros H0; inversion H0; subst; (split; [cbn; lia|]);
      intros e He Hno; inversion He; subst; by destruct (Hno msg)
     |cbn; intros H0; inversion H0; subst; split; [cbn; lia|done]]).
Qed.

(** Single-agent construction never succeeds with anything but a class
    for [optimizer_cls] (a list of classes included), and calls nothing. *)
Theorem single_agent_needs_one_class rt a tr (r : result (@OptimizerWrapper OptClass KwVal Opt)) :
  arg_multiagent a = false →
  isinstance_type (arg_optimizer_cls a) = false →
  __init__ rt a = (tr, r) →
  tr = [] ∧ ∃ e, r = Raise e.
Proof.
  intros Hma Hty. unfold __init__.
  destruct (_ ≫= _) as [[nets names]|e0];
    [|intros H0; inversion H0; subst; eauto].
  unfold build_optimizer, choose_topology. rewrite Hma, Hty.
  destruct (py_len nets) as [n|e0];
    [|cbn; intros H0; inversion H0; subst; eauto].
  destruct (_ && _); cbn.
  - destruct (py_assert _ _); cbn; intros H0; inversion H0; subst; eauto.
  - intros H0; inversion H0; subst; eauto.
Qed.

(** Multi-agent construction uses the lists it is given by position, so
    it cannot succeed with a class list or a kwargs list shorter than the
    networks. *)
Theorem per_network_lists_cover_networks rt a tr w :
  arg_multiagent a = true →
  __init__ rt a = (tr, Ok w) →
  ∃ items, py_iter (networks w) = Ok items
    ∧ (∀ cs, arg_optimizer_cls a = ClsList cs → (length items ≤ length cs)%nat)
    ∧ (∀ l, arg_optimizer_kwargs a = KwList l → (length items ≤ length l)%nat).
Proof.
  intros Hma Hw. apply init_ok_inv in Hw.
  destruct Hw as (nets & names & f & _ & _ & Hb & ->).
  destruct (build_optimizer_per_network _ _ _ _ _ Hma Hb)
    as (items & os & Hit & -> & Hloop).
  destruct (per_network_loop_ok _ _ _ _ _ _ Hloop) as (_ & _ & Hall).
  exists items. cbn. split; [done|].
  destruct (decide (length items = 0)) as [->|Hpos]; [split; intros; lia|].
  destruct (lookup_lt_is_Some_2 items (length items - 1)) as [net Hnet]; [lia|].
  destruct (Hall _ _ Hnet) as (c & o & Hc & _).
  apply per_network_call_ok in Hc. destruct Hc as (k & d & ps & Hk & Hd & _).
  cbn in Hk, Hd. split.
  - intros cs Hcs. rewrite Hcs in Hk. cbn in Hk.
    destruct (cs !! (length items - 1)) eqn:E; [|done].
    apply lookup_lt_Some in E. lia.
  - intros l Hl. rewrite Hl in Hd. cbn in Hd.
    destruct (l !! (length items - 1)) eqn:E; [|done].
    apply lookup_lt_Some in E. lia.
Qed.

(** An empty list of networks with the multi-agent flag constructs a
    wrapper with no optimizer at all, whatever the class and kwargs
    arguments are, and calls nothing. *)
Theorem multiagent_empty_networks rt a (r0 : ref) (ns : list string) :
  arg_multiagent a = true →
  arg_networks a = PyList r0 [] →
  arg_network_names a = Some ns →
  ns ≠ [] →
  __init__ rt a
  = ([], Ok (Wrapper (arg_optimizer_cls a) (arg_optimizer_kwargs a) true
               (PyList r0 []) ns (OList []))).
Proof.
  intros Hma Hnets Hns Hne. unfold __init__, bind_network_names.
  rewrite bind_networks_ok, Hnets, Hns, Hma. cbn.
  destruct ns as [|n ns]; [done|]. cbn.
  unfold build_optimizer. cbn. by rewrite Hma.
Qed.

(** The same empty list without the flag, with a class and a dict: the
    constructor indexes the first network and raises [IndexError], having
    called nothing. *)
Theorem single_agent_empty_networks rt a (r0 : ref) (ns : list string) :
  arg_multiagent a = false →
  arg_networks a = PyList r0 [] →
  arg_network_names a = Some ns →
  ns ≠ [] →
  isinstance_type (arg_optimizer_cls a) = true →
  isinstance_dict (arg_optimizer_kwargs a) = true →
  ∃ msg, __init__ rt a = ([], Raise (IndexError msg)).
Proof.
  intros Hma Hnets Hns Hne Hty Hd. unfold __init__, bind_network_names.
  rewrite bind_networks_ok, Hnets, Hns, Hma. cbn.
  destruct ns as [|n ns]; [done|]. cbn.
  unfold build_optimizer. cbn. rewrite Hma, Hty, Hd. cbn. eauto.
Qed.

End Policy.

(** ** Later calls *)

Section Calls.
Context {OptClass KwVal Opt StateMap Tensors : Type}.
Context {OPT : Optimizer OptClass KwVal Opt StateMap Tensors}.

Implicit Types (a : @init_args OptClass KwVal) (w : @OptimizerWrapper OptClass KwVal Opt).
Implicit Types (tr : list (opt_call OptClass KwVal)) (rt : runtime).
Implicit Types (t : Tensors) (ops : list (@op StateMap)) (os : list Opt).

(** Nothing a later call does rebinds the wrapper: networks, names, class
    and kwargs stay those of the construction, and so do the topology and
    the number of stored instances. *)
Theorem calls_keep_the_binding rt a tr w0 ops t :
  __init__ rt a = (tr, Ok w0) →
  let w := (run_ops ops (w0, t)).1 in
  optimizer_cls w = arg_optimizer_cls a
  ∧ optimizer_kwargs w = arg_optimizer_kwargs a
  ∧ networks w = networks w0
  ∧ network_names w = network_names w0
  ∧ topology_of w = topology_of w0
  ∧ length (instances (optimizer w)) = length (instances (optimizer w0)).
Proof.
  intros Hw w. apply init_ok_inv in Hw.
  destruct Hw as (nets & names & f & _ & _ & _ & ->).
  destruct (run_ops_same_binding ops
              (Wrapper (arg_optimizer_cls a) (arg_optimizer_kwargs a)
                 (arg_multiagent a) nets names f) t)
    as (H1 & H2 & H3 & H4 & H5 & _ & H7).
  fold w in H1, H2, H3, H4, H5, H7.
  repeat split; try done. unfold topology_of. by rewrite H3, H4, H5.
Qed.

(** A PER_NETWORK wrapper holds one instance per network, at any time;
    iterating it yields these instances, while iterating a SINGLE or
    POOLED wrapper raises [TypeError]. *)
Theorem iter_by_topology rt a tr w0 ops t :
  __init__ rt a = (tr, Ok w0) →
  let w := (run_ops ops (w0, t)).1 in
  if arg_multiagent a then
    ∃ items os, py_iter (networks w) = Ok items
      ∧ __iter__ w = Ok os
      ∧ optimizer w = OList os
      ∧ length os = length items
  else ∃ msg, __iter__ w = Raise (TypeError msg).
Proof.
  intros Hw w.
  destruct (reachable_shape rt a tr w0 ops t Hw) as (Hma & Hseq & _).
  fold w in Hma, Hseq. unfold __iter__.
  destruct (arg_multiagent a) eqn:Eflag.
  - destruct (per_network_instances rt a tr w0 ops t Hw Eflag)
      as (items & Hit & Hlen).
    fold w in Hit, Hlen. destruct (optimizer w) as [o|os]; [done|].
    exists items, os. auto.
  - destruct (optimizer w) as [o|os]; [eauto|done].
Qed.

Lemma for_each_raise m os : ∀ t os' t' e,
  for_each m os t = (os', t', Some e) →
  ∃ k msg, (k < length os)%nat ∧ e = OptimizerRaised msg
    ∧ drop (S k) os' = drop (S k) os.
Proof.
  induction os as [|opt rest IH]; intros t os' t' e H0; [done|].
  cbn [for_each] in H0.
  destruct (m opt t) as [[opt' t1] [msg|]].
  - inversion H0; subst. exists 0%nat, msg. cbn. repeat split; try lia; done.
  - destruct (for_each m rest t1) as [[rest' t2] e'] eqn:Er.
    inversion H0; subst. clear H0.
    destruct (IH _ _ _ _ Er) as (k & msg & Hk & -> & Hdrop).
    exists (S k), msg. cbn. repeat split; try lia; done.
Qed.


(** Whatever [step] or [zero_grad] raises on a constructed wrapper was
    raised by an optimizer instance: the dispatch on the flag never meets
    a stored optimizer of the other shape. *)
Theorem step_raises_only_from_instances rt a tr w0 ops t w' t' e :
  __init__ rt a = (tr, Ok w0) →
  let w := (run_ops ops (w0, t)).1 in
  step w t = (w', t', Some e) ∨ zero_grad w t = (w', t', Some e) →
  ∃ msg, e = OptimizerRaised msg.
Proof.
  intros Hw w Hcall.
  destruct (reachable_shape rt a tr w0 ops t Hw) as (Hma & Hseq & _).
  fold w in Hma, Hseq. rewrite <- Hma in Hseq.
  assert (Hgen : ∀ m name, delegate m name w t = (w', t', Some e) →
    ∃ msg, e = OptimizerRaised msg).
  { intros m name. unfold delegate.
    destruct (multiagent w), (optimizer w) as [o|os]; try done.
    - destruct (for_each m os t) as [[os1 t1] e1] eqn:Ef. intros H0.
      inversion H0; subst.
      destruct (for_each_raise m os t os1 t' e Ef) as (k & msg & _ & -> & _).
      eauto.
    - destruct (m o t) as [[o1 t1] [msg|]]; cbn; intros H0; inversion H0; eauto. }
  destruct Hcall as [Hs|Hz]; [exact (Hgen _ _ Hs)|exact (Hgen _ _ Hz)].
Qed.



(** On a SINGLE or POOLED wrapper [load_state_dict] takes a dict only:
    anything else, a list included, raises the assertion with the wrapper
    as it was and nothing handed to the instance; a dict is handed to the
    one instance, and only that instance can raise. *)
Theorem load_state_dict_single_agent rt a tr w0 ops t (p : payload StateMap) :
  __init__ rt a = (tr, Ok w0) →
  arg_multiagent a = false →
  let w := (run_ops ops (w0, t)).1 in
  match p with
  | PDict _ =>
      (load_state_dict w p).1.2 = [p]
      ∧ ∀ e, (load_state_dict w p).2 = Some e → ∃ msg, e = OptimizerRaised msg
  | _ =>
      load_state_dict w p
      = (w, [],
         Some (AssertionError
                 (Some "Expected a single optimizer state dictionary for single-agent optimizers.")))
  end.
Proof.
  intros Hw Hflag w.
  destruct (reachable_shape rt a tr w0 ops t Hw) as (Hma & Hseq & _).
  fold w in Hma, Hseq. rewrite Hflag in Hma, Hseq.
  unfold load_state_dict. rewrite Hma.
  destruct p as [d|l|l|]; try done.
  destruct (optimizer w) as [o|os]; [|done].
  destruct (opt_load_state_dict o (PDict d)) as [o' [msg|]]; cbn.
  - split; [done|]. intros e He. inversion He. eauto.
  - split; [done|]. intros e He. inversion He.
Qed.

Lemma list_getitem_in_range {A : Type} (l : list A) (index : Z) :
  (- Z.of_nat (length l) ≤ index < Z.of_nat (length l))%Z →
  ∃ x, list_getitem l index = Ok x
       ∧ l !! Z.to_nat (index `mod` Z.of_nat (length l)) = Some x.
Proof.
  intros Hr. unfold list_getitem.
  set (n := Z.of_nat (length l)) in *.
  assert (Hmod : (index `mod` n
                  = if (index <? 0)%Z then (index + n)%Z else index)%Z).
  { destruct (Z.ltb_spec index 0).
    - symmetry. apply (Z.mod_unique index n (-1)); lia.
    - apply Z.mod_small. lia. }
  rewrite Hmod. destruct (Z.ltb_spec index 0) as [Hneg|Hpos].
  - destruct (Z.leb_spec 0 (index + n)) as [_|]; [|lia].
    destruct (Z.ltb_spec (index + n) n) as [_|]; [|lia]. cbn.
    destruct (lookup_lt_is_Some_2 l (Z.to_nat (index + n))) as [x Hx]; [lia|].
    rewrite Hx. eauto.
  - destruct (Z.leb_spec 0 index) as [_|]; [|lia].
    destruct (Z.ltb_spec index n) as [_|]; [|lia]. cbn.
    destruct (lookup_lt_is_Some_2 l (Z.to_nat index)) as [x Hx]; [lia|].
    rewrite Hx. eauto.
Qed.

Lemma list_getitem_out_of_range {A : Type} (l : list A) (index : Z) :
  (index < - Z.of_nat (length l) ∨ Z.of_nat (length l) ≤ index)%Z →
  ∃ msg, list_getitem l index = Raise (IndexError msg).
Proof.
  intros Hr. unfold list_getitem.
  set (n := Z.of_nat (length l)) in *.
  assert (0 ≤ n)%Z by lia.
  destruct (Z.ltb_spec index 0) as [Hneg|Hpos].
  - destruct (Z.leb_spec 0 (index + n)) as [|_]; [lia|]. cbn. eauto.
  - destruct (Z.leb_spec 0 index) as [_|]; [|lia].
    destruct (Z.ltb_spec index n) as [|_]; [lia|]. cbn. eauto.
Qed.

(** Indexing a multi-agent wrapper of [N] instances follows Python's list
    indexing: an index from [-N] to [N-1] returns the instance at that
    index modulo [N], so [-1] is the last one; any other index raises
    [IndexError], which the handler for [TypeError] lets through. *)
Theorem getitem_bounds rt a tr w0 ops t (index : Z) :
  __init__ rt a = (tr, Ok w0) →
  arg_multiagent a = true →
  let w := (run_ops ops (w0, t)).1 in
  let os := instances (optimizer w) in
  let N := Z.of_nat (length os) in
  ((- N ≤ index < N)%Z →
   ∃ o, __getitem__ w index = Ok o ∧ os !! Z.to_nat (index `mod` N) = Some o)
  ∧ ((index < - N ∨ N ≤ index)%Z →
     ∃ msg, __getitem__ w index = Raise (IndexError msg)).
Proof.
  intros Hw Hflag w os N.
  destruct (reachable_shape rt a tr w0 ops t Hw) as (_ & Hseq & _).
  fold w in Hseq. rewrite Hflag in Hseq.
  unfold __getitem__, os, N. destruct (optimizer w) as [o|l]; [done|]. cbn.
  split; intros Hr.
  - destruct (list_getitem_in_range l index Hr) as (x & -> & Hx). eauto.
  - destruct (list_getitem_out_of_range l index Hr) as (msg & ->). eauto.
Qed.

End Calls.

Section Counts.
Context {OptClass KwVal Opt StateMap Tensors : Type}.
Context {OPT : Optimizer OptClass KwVal Opt StateMap Tensors}.

(** Several networks under several names, but not as many of one as of
    the other: single-agent construction raises the assertion on the two
    counts before any class is called. *)
Theorem pooled_requires_matching_counts (rt : runtime)
    (a : @init_args OptClass KwVal) (ns : list string) (n : nat) :
  arg_multiagent a = false →
  arg_network_names a = Some ns →
  py_len (arg_networks a) = Ok n →
  (1 < n)%nat → (1 < length ns)%nat → n ≠ length ns →
  @__init__ _ _ Opt _ _ OPT rt a
  = ([], Raise (AssertionError
                  (Some "Number of networks and network attribute names do not match."))).
Proof.
  intros Hma Hns Hlen Hn Hm Hne. unfold __init__, bind_network_names.
  rewrite bind_networks_ok, Hns, Hma.
  assert (Hmod : isinstance_Module (arg_networks a) = false)
    by (destruct (arg_networks a); done).
  rewrite Hmod. cbn [mbind result_bind].
  destruct ns as [|n0 ns]; [cbn in Hm; lia|]. cbn [length Nat.eqb negb py_assert].
  cbn [mbind result_bind]. unfold build_optimizer. rewrite Hlen, Hma.
  unfold choose_topology.
  destruct (Nat.ltb_spec 1 n) as [_|]; [|lia].
  destruct (Nat.ltb_spec 1 (length (n0 :: ns))) as [_|]; [|lia]. cbn [andb].
  destruct (Nat.eqb_spec n (length (n0 :: ns))) as [|_]; [done|]. reflexivity.
Qed.

End Counts.

(** ** Closed examples for the further properties *)

Lemma explicit_names_skip_the_stack_witness :
  __init__ (Runtime [] 100) args_two_networks_one_name
  = __init__ (in_owner owner_of_A) args_two_networks_one_name.
Proof.
  exact (proj1 (explicit_names_skip_the_stack (OPT:=ref_optimizer)
                  args_two_networks_one_name ["actor"] []
                  [[("self", owner_of_A)]] 100 eq_refl)).
Defined.

Lemma inference_reads_the_caller_frame_witness :
  __init__ (Runtime [[("self", owner_of_A)]; [("self", [])]] 100) args_single
  = __init__ (in_owner owner_of_A) args_single
  ∧ __init__ (Runtime [[("cls", owner_of_A)]; [("self", owner_of_A)]] 100) args_single
    = ([], Raise (KeyError "self")).
Proof.
  split.
  - exact (proj1 (inference_reads_the_caller_frame (OPT:=ref_optimizer)
                    args_single [("self", owner_of_A)] [[("self", [])]] [] 100
                    eq_refl)).
  - exact (proj2 (inference_reads_the_caller_frame (OPT:=ref_optimizer)
                    args_single [("cls", owner_of_A)] [[("self", owner_of_A)]] []
                    100 eq_refl) eq_refl).
Defined.

Lemma multiagent_bare_module_never_resolves_witness :
  __init__ (in_owner owner_of_A) args_multi_bare
  = ([], Raise (AssertionError (Some "No networks found in the parent container."))).
Proof.
  apply (multiagent_bare_module_never_resolves (OPT:=ref_optimizer)
           (in_owner owner_of_A) args_multi_bare owner_of_A
           eq_refl eq_refl eq_refl eq_refl).
  intros n v Hin. cbn.
  inversion Hin as [|? ? ? Hin']; subst; [cbn; lia|].
  inversion Hin' as [|? ? ? Hin'']; subst; [cbn; lia|].
  inversion Hin''.
Defined.

Lemma single_agent_module_names_witness :
  ∃ tr w, __init__ (in_owner owner_of_A) args_single = (tr, Ok w)
    ∧ networks w = PyList 100 [module_A]
    ∧ network_names w = ["actor"].
Proof.
  eexists _, _. split; [reflexivity|].
  eapply (single_agent_module_names (OPT:=ref_optimizer) (in_owner owner_of_A)
            args_single owner_of_A); reflexivity.
Defined.

Lemma pooled_construction_witness :
  ∃ tr w, __init__ (in_owner owner_of_A) args_pooled = (tr, Ok w)
    ∧ ∃ gs, tr = [OptCall SGD (PosGroups gs) []] ∧ length gs = 2%nat.
Proof.
  eexists _, _. split; [reflexivity|].
  edestruct (pooled_construction (OPT:=ref_optimizer) (in_owner owner_of_A)
               args_pooled)
    as (k & items & gs & o & Hk & Hit & _ & Hlen & Htr & _);
    [reflexivity|reflexivity|].
  inversion Hk; subst k. inversion Hit; subst items.
  exists gs. auto.
Defined.

Lemma single_agent_fails_before_any_call_witness :
  (length (__init__ (in_owner owner_of_A) args_unowned).1 ≤ 1)%nat
  ∧ (__init__ (in_owner owner_of_A) args_unowned).1 = [].
Proof.
  destruct (single_agent_fails_before_any_call (OPT:=ref_optimizer)
              (in_owner owner_of_A) args_unowned _ _ eq_refl eq_refl)
    as [Hlen Hnone].
  split; [exact Hlen|].
  apply (Hnone (AssertionError (Some "No networks found in the parent container.")));
    [reflexivity|intros msg Hmsg; inversion Hmsg].
Defined.

Lemma single_agent_needs_one_class_witness :
  (__init__ (in_owner owner_of_A) args_class_list).1 = [].
Proof.
  exact (proj1 (single_agent_needs_one_class (OPT:=ref_optimizer)
                  (in_owner owner_of_A) args_class_list _ _
                  eq_refl eq_refl eq_refl)).
Defined.

Lemma per_network_lists_cover_networks_witness :
  ∃ items, py_iter (PyList 7 [module_A; module_C]) = Ok items
    ∧ (length items ≤ 2)%nat.
Proof.
  edestruct (per_network_lists_cover_networks (OPT:=ref_optimizer)
               (in_owner owner_of_A) args_multi)
    as (items & Hit & Hcls & _); [reflexivity|reflexivity|].
  exists items. split; [exact Hit|]. exact (Hcls _ eq_refl).
Defined.

Lemma multiagent_empty_networks_witness :
  __init__ (OPT:=ref_optimizer) (in_owner owner_of_A) args_multi_empty
  = ([], Ok (Wrapper ClsOther KwOther true (PyList 7 []) ["agents"] (OList []))).
Proof.
  apply (multiagent_empty_networks (OPT:=ref_optimizer) (in_owner owner_of_A)
           args_multi_empty 7 ["agents"] eq_refl eq_refl eq_refl).
  intros Hnil. inversion Hnil.
Defined.

Lemma single_agent_empty_networks_witness :
  ∃ msg, __init__ (in_owner owner_of_A) args_single_empty
         = ([], Raise (IndexError msg)).
Proof.
  apply (single_agent_empty_networks (OPT:=ref_optimizer) (in_owner owner_of_A)
           args_single_empty 7 ["actor"] eq_refl eq_refl eq_refl);
    [intros Hnil; inversion Hnil|reflexivity|reflexivity].
Defined.

Lemma pooled_requires_matching_counts_witness :
  __init__ (in_owner owner_of_A) args_three_names
  = ([], Raise (AssertionError
                  (Some "Number of networks and network attribute names do not match."))).
Proof.
  apply (pooled_requires_matching_counts (OPT:=ref_optimizer)
           (in_owner owner_of_A) args_three_names
           ["actor"; "critic"; "target"] 2 eq_refl eq_refl eq_refl);
    cbn; lia.
Defined.

Lemma calls_keep_the_binding_witness :
  ∃ tr w0, __init__ (in_owner owner_of_A) args_pooled = (tr, Ok w0)
    ∧ let w := (run_ops [OpStep; OpLoadStateDict (PDict 5); OpZeroGrad] (w0, 0)).1 in
      networks w = networks w0 ∧ network_names w = ["actor"; "critic"].
Proof.
  eexists _, _. split; [reflexivity|].
  destruct (calls_keep_the_binding (OPT:=ref_optimizer) (in_owner owner_of_A)
              args_pooled _ _ [OpStep; OpLoadStateDict (PDict 5); OpZeroGrad] 0
              eq_refl)
    as (_ & _ & Hnets & Hnames & _).
  split; [exact Hnets|exact Hnames].
Defined.

Lemma iter_by_topology_witness :
  ∃ tr w0, __init__ (in_owner owner_of_A) args_multi = (tr, Ok w0)
    ∧ ∃ os, __iter__ (run_ops [OpStep] (w0, 0)).1 = Ok os ∧ length os = 2%nat.
Proof.
  eexists _, _. split; [reflexivity|].
  destruct (iter_by_topology (OPT:=ref_optimizer) (in_owner owner_of_A)
              args_multi _ _ [OpStep] 0 eq_refl)
    as (items & os & Hit & Hiter & _ & Hlen).
  inversion Hit; subst items. exists os. split; [exact Hiter|exact Hlen].
Defined.


Lemma step_raises_only_from_instances_witness :
  ∃ tr w0 w' t' e,
    __init__ (OPT:=strict_optimizer) (in_owner owner_of_A) args_multi_three
    = (tr, Ok w0)
    ∧ step (OPT:=strict_optimizer) w0 0 = (w', t', Some e)
    ∧ ∃ msg, e = OptimizerRaised msg.
Proof.
  edestruct (step_raises_only_from_instances (OPT:=strict_optimizer)
               (in_owner owner_of_A) args_multi_three)
    with (ops := @nil (@op nat)) (t := 0%nat)
    as (msg & He);
    [reflexivity|left; reflexivity|].
  eexists _, _, _, _, _. split; [reflexivity|]. split; [reflexivity|].
  exists msg. exact He.
Defined.


Lemma load_state_dict_single_agent_witness :
  ∃ tr w0, __init__ (in_owner owner_of_A) args_single = (tr, Ok w0)
    ∧ load_state_dict w0 (PList [PDict 3])
      = (w0, [],
         Some (AssertionError
                 (Some "Expected a single optimizer state dictionary for single-agent optimizers."))).
Proof.
  eexists _, _. split; [reflexivity|].
  exact (load_state_dict_single_agent (OPT:=ref_optimizer) (in_owner owner_of_A)
           args_single _ _ [] 0 (PList [PDict 3]) eq_refl eq_refl).
Defined.

Lemma getitem_bounds_witness :
  ∃ tr w0, __init__ (in_owner owner_of_A) args_multi = (tr, Ok w0)
    ∧ ∃ o, __getitem__ w0 (-1) = Ok o
           ∧ instances (optimizer w0) !! 1%nat = Some o.
Proof.
  eexists _, _. split; [reflexivity|].
  apply (proj1 (getitem_bounds (OPT:=ref_optimizer) (in_owner owner_of_A)
                  args_multi _ _ [] 0 (-1)%Z eq_refl eq_refl)).
  cbn. lia.
Defined.
